(** * Satellite data endpoints (backend/satellite_apis.py)

    A shallow embedding of the six Django REST views that query Google
    Earth Engine for NDVI and land-surface-temperature data, and the
    properties of the glue code they contain: request validation, the
    tiling grid, the trailing 12-month window, the bounded fan-out with
    its sequential fallback, and the shaping of "no data" answers.

    Conventions of the embedding.
    - Python floats are represented by exact rationals ([Q]); binary64
      rounding is outside the model.
    - Values that travel through JSON (request bodies, answers of
      [getInfo], response bodies) are [pyval]s; a [dict] is an association
      list in insertion order.
    - Code that may raise returns a [result]; code that also talks to the
      Earth Engine servers lives in the writer monad [M], whose trace lists
      the remote calls in the order they were issued.
    - Earth Engine objects are lazy expression trees on the client; they
      are embedded as the inductive types [Collection], [Image] and
      [Computed], one constructor per client-library call the views use. *)

From Stdlib Require Import ZArith QArith Qround Qminmax List String Ascii Bool.
From Stdlib Require Import Lia Lqa DecimalString Permutation Sorted.
Import ListNotations.

Local Open Scope string_scope.
Local Open Scope Z_scope.

(* ================================================================= *)
(** ** Python values, exceptions, and the builtins the views rely on *)

Module Py.

#[warnings="-register-all"]
Inductive pyval : Type :=
| PNone
| PBool (b : bool)
| PNum (q : Q)
| PStr (s : string)
| PList (l : list pyval)
| PDict (d : list (string * pyval)).

Inductive exn_kind : Type :=
| ValueError | TypeError | AttributeError | KeyError | IndexError
| RuntimeError | EEException.

(** An exception object; [exn_msg] is what [str(e)] returns. *)
Record exn : Type := Exn { exn_type : exn_kind; exn_msg : string }.

Inductive result (A : Type) : Type :=
| Ok (a : A)
| Raise (e : exn).
Arguments Ok {A} a.
Arguments Raise {A} e.

Definition rbind {A B} (r : result A) (k : A -> result B) : result B :=
  match r with
  | Ok a => k a
  | Raise e => Raise e
  end.

(** [x is not None] *)
Definition is_not_None (v : pyval) : bool :=
  match v with
  | PNone => false
  | _ => true
  end.

(** Truth value of an object, as tested by [if x] / [not x]. *)
Definition truthy (v : pyval) : bool :=
  match v with
  | PNone => false
  | PBool b => b
  | PNum q => negb (Qeq_bool q 0)
  | PStr s => negb (String.eqb s "")
  | PList l => match l with [] => false | _ => true end
  | PDict d => match d with [] => false | _ => true end
  end.

Fixpoint assoc (k : string) (d : list (string * pyval)) : option pyval :=
  match d with
  | [] => None
  | (k', v) :: d' => if String.eqb k k' then Some v else assoc k d'
  end.

(** [d.get(k)] on a dict: the value, or [None] when the key is absent. *)
Definition dict_get (d : list (string * pyval)) (k : string) : pyval :=
  match assoc k d with
  | Some v => v
  | None => PNone
  end.

(** [isinstance(v, dict)] *)
Definition is_dict (v : pyval) : bool :=
  match v with
  | PDict _ => true
  | _ => false
  end.

(** [v == s] for a string literal [s]. *)
Definition eq_str (v : pyval) (s : string) : bool :=
  match v with
  | PStr s' => String.eqb s' s
  | _ => false
  end.

Fixpoint is_prefix (p s : string) : bool :=
  match p, s with
  | EmptyString, _ => true
  | String a p', String b s' => Ascii.eqb a b && is_prefix p' s'
  | String _ _, EmptyString => false
  end.

Fixpoint is_substring (p s : string) : bool :=
  is_prefix p s ||
  match s with
  | EmptyString => false
  | String _ s' => is_substring p s'
  end.

(** [k in v] for a string literal [k]: key test on a dict, membership
    on a list, substring test on a str, [TypeError] otherwise. *)
Definition contains (k : string) (v : pyval) : result bool :=
  match v with
  | PDict d => Ok (match assoc k d with Some _ => true | None => false end)
  | PList l => Ok (existsb (fun x => eq_str x k) l)
  | PStr s => Ok (is_substring k s)
  | _ => Raise (Exn TypeError "argument is not iterable")
  end.

(** [v[k]] for a string key. *)
Definition getitem_str (v : pyval) (k : string) : result pyval :=
  match v with
  | PDict d =>
      match assoc k d with
      | Some x => Ok x
      | None => Raise (Exn KeyError k)
      end
  | PList _ | PStr _ => Raise (Exn TypeError "indices must be integers")
  | _ => Raise (Exn TypeError "object is not subscriptable")
  end.

(** [v.get(k)]: only dicts have the method. *)
Definition method_get (v : pyval) (k : string) : result pyval :=
  match v with
  | PDict d => Ok (dict_get d k)
  | _ => Raise (Exn AttributeError "object has no attribute 'get'")
  end.

Definition str_chars (s : string) : list pyval :=
  map (fun c => PStr (String c EmptyString)) (list_ascii_of_string s).

(** [len(v)] *)
Definition len (v : pyval) : result Z :=
  match v with
  | PList l => Ok (Z.of_nat (List.length l))
  | PDict d => Ok (Z.of_nat (List.length d))
  | PStr s => Ok (Z.of_nat (String.length s))
  | _ => Raise (Exn TypeError "object has no len()")
  end.

(** [v[n]] for a non-negative integer literal [n]. *)
Definition getitem_nat (v : pyval) (n : nat) : result pyval :=
  match v with
  | PList l =>
      match nth_error l n with
      | Some x => Ok x
      | None => Raise (Exn IndexError "list index out of range")
      end
  | PStr s =>
      match nth_error (str_chars s) n with
      | Some x => Ok x
      | None => Raise (Exn IndexError "string index out of range")
      end
  | PDict _ => Raise (Exn KeyError "0")
  | _ => Raise (Exn TypeError "object is not subscriptable")
  end.

(** [v[1:]] followed by iteration: the elements after the first. *)
Definition tail_items (v : pyval) : result (list pyval) :=
  match v with
  | PList l => Ok (tl l)
  | PStr s => Ok (tl (str_chars s))
  | _ => Raise (Exn TypeError "object is not subscriptable")
  end.

(** [v > 0] *)
Definition gt0 (v : pyval) : result bool :=
  match v with
  | PNum q => Ok (if Qlt_le_dec 0 q then true else false)
  | PBool b => Ok b
  | _ => Raise (Exn TypeError "'>' not supported")
  end.

(** Round half to even at the units. *)
Definition round_half_even (x : Q) : Z :=
  let f := Qfloor x in
  let twice := Qfloor (x * 2) in
  (* twice - 2f is 0 below the midpoint and 1 from the midpoint on *)
  if (twice - 2 * f =? 0)%Z then f
  else if Qeq_bool (x * 2) (inject_Z twice) && Z.even f then f
  else (f + 1)%Z.

(** [round(x, n)] on a number, [n] decimals. *)
Definition round_q (x : Q) (n : nat) : Q :=
  let scale := inject_Z (10 ^ Z.of_nat n) in
  Qred (inject_Z (round_half_even (x * scale)) / scale).

Definition round (v : pyval) (n : nat) : result pyval :=
  match v with
  | PNum q => Ok (PNum (round_q q n))
  | PBool b => Ok (PNum (if b then 1 else 0))
  | _ => Raise (Exn TypeError "type doesn't define __round__ method")
  end.

(** [float(v)]; the grammar of float literals in a str is left to
    [float_of_str]. *)
Definition float (float_of_str : string -> option Q) (v : pyval) : result Q :=
  match v with
  | PNum q => Ok q
  | PBool b => Ok (if b then 1 else 0)%Q
  | PStr s =>
      match float_of_str s with
      | Some q => Ok q
      | None => Raise (Exn ValueError "could not convert string to float")
      end
  | _ => Raise (Exn TypeError "float() argument must be a string or a real number")
  end.

Definition is_Value_or_TypeError (e : exn) : bool :=
  match exn_type e with
  | ValueError | TypeError => true
  | _ => false
  end.

End Py.
Import Py.

(* ================================================================= *)
(** ** datetime, dateutil's relativedelta, strftime and strptime *)

Module Datetime.

Record datetime : Type := mk_datetime {
  year : Z; month : Z; day : Z;
  hour : Z; minute : Z; second : Z; microsecond : Z
}.

Definition MINYEAR : Z := 1.
Definition MAXYEAR : Z := 9999.

(** [calendar.isleap] *)
Definition isleap (y : Z) : bool :=
  (y mod 4 =? 0) && (negb (y mod 100 =? 0) || (y mod 400 =? 0)).

(** [calendar.mdays] *)
Definition mdays (m : Z) : Z :=
  match m with
  | 1 => 31 | 2 => 28 | 3 => 31 | 4 => 30 | 5 => 31 | 6 => 30
  | 7 => 31 | 8 => 31 | 9 => 30 | 10 => 31 | 11 => 30 | 12 => 31
  | _ => 0
  end.

(** [calendar.monthrange(y, m)[1]]: the number of days of the month. *)
Definition monthrange_days (y m : Z) : Z :=
  mdays m + (if (m =? 2) && isleap y then 1 else 0).

(** The fields of a [relativedelta] that [relativedelta(months=n)] sets. *)
Record relativedelta : Type := mk_relativedelta { rd_years : Z; rd_months : Z }.

(** [relativedelta(months=n)]: the constructor folds whole years out of
    the month count. *)
Definition relativedelta_months (n : Z) : relativedelta :=
  if 11 <? Z.abs n then
    let s := Z.sgn n in
    {| rd_years := (n * s / 12) * s; rd_months := ((n * s) mod 12) * s |}
  else {| rd_years := 0; rd_months := n |}.

Definition rd_neg (r : relativedelta) : relativedelta :=
  {| rd_years := - rd_years r; rd_months := - rd_months r |}.

(** [dt + rd]: shift year and month, clip the day to the length of the
    target month, keep the time of day; [datetime.replace] raises
    [ValueError] when the year leaves [MINYEAR..MAXYEAR]. *)
Definition add (dt : datetime) (rd : relativedelta) : result datetime :=
  let y := year dt + rd_years rd in
  let m := month dt in
  let '(y, m) :=
    if rd_months rd =? 0 then (y, m)
    else
      let m := m + rd_months rd in
      if 12 <? m then (y + 1, m - 12)
      else if m <? 1 then (y - 1, m + 12)
      else (y, m) in
  let d := Z.min (monthrange_days y m) (day dt) in
  if (MINYEAR <=? y) && (y <=? MAXYEAR) then
    Ok {| year := y; month := m; day := d;
          hour := hour dt; minute := minute dt; second := second dt;
          microsecond := microsecond dt |}
  else Raise (Exn ValueError "year is out of range").

(** [dt - rd] *)
Definition sub (dt : datetime) (rd : relativedelta) : result datetime :=
  add dt (rd_neg rd).

Definition decimal (z : Z) : string := NilZero.string_of_int (Z.to_int z).

Definition pad2 (z : Z) : string :=
  if z <? 10 then "0" ++ decimal z else decimal z.

Definition month_name (m : Z) : string :=
  match m with
  | 1 => "January" | 2 => "February" | 3 => "March" | 4 => "April"
  | 5 => "May" | 6 => "June" | 7 => "July" | 8 => "August"
  | 9 => "September" | 10 => "October" | 11 => "November"
  | 12 => "December"
  | _ => ""
  end.

(** [dt.strftime('%Y-%m-%d')] (years are printed without padding, as
    glibc does). *)
Definition strftime_Ymd (dt : datetime) : string :=
  decimal (year dt) ++ "-" ++ pad2 (month dt) ++ "-" ++ pad2 (day dt).

(** [dt.strftime('%Y-%m')] *)
Definition strftime_Ym (dt : datetime) : string :=
  decimal (year dt) ++ "-" ++ pad2 (month dt).

(** [dt.strftime('%B %Y')] *)
Definition strftime_BY (dt : datetime) : string :=
  month_name (month dt) ++ " " ++ decimal (year dt).

Definition is_digit (c : ascii) : bool :=
  let n := nat_of_ascii c in (48 <=? n)%nat && (n <=? 57)%nat.

Definition digit_val (c : ascii) : Z := Z.of_nat (nat_of_ascii c - 48).

Definition bad_format : exn :=
  Exn ValueError "time data does not match format '%Y-%m'".

(** [datetime.strptime(s, '%Y-%m')] on a str. The format compiles to the
    regular expression [(\d\d\d\d)-(1[0-2]|0[1-9]|[1-9])], which must
    match at the start and leave nothing unconverted; the date is the
    first of the month at midnight. *)
Definition strptime_Ym_str (s : string) : result datetime :=
  match list_ascii_of_string s with
  | y1 :: y2 :: y3 :: y4 :: "-"%char :: rest =>
      if is_digit y1 && is_digit y2 && is_digit y3 && is_digit y4 then
        let y := 1000 * digit_val y1 + 100 * digit_val y2
                 + 10 * digit_val y3 + digit_val y4 in
        let mo :=
          match rest with
          | [m1; m2] =>
              if Ascii.eqb m1 "1" && is_digit m2 && (digit_val m2 <=? 2)
              then Some (10 + digit_val m2)
              else if Ascii.eqb m1 "0" && is_digit m2 && (1 <=? digit_val m2)
              then Some (digit_val m2)
              else None
          | [m1] =>
              if is_digit m1 && (1 <=? digit_val m1) then Some (digit_val m1)
              else None
          | _ => None
          end in
        match mo with
        | Some m =>
            if MINYEAR <=? y then
              Ok {| year := y; month := m; day := 1; hour := 0; minute := 0;
                    second := 0; microsecond := 0 |}
            else Raise (Exn ValueError "year is out of range")
        | None => Raise bad_format
        end
      else Raise bad_format
  | _ => Raise bad_format
  end.

(** [datetime.strptime(v, '%Y-%m')] on any object: [TypeError] unless it
    is a str. *)
Definition strptime_Ym (v : pyval) : result datetime :=
  match v with
  | PStr s => strptime_Ym_str s
  | _ => Raise (Exn TypeError "strptime() argument 1 must be str")
  end.

(** Calendar order on the date part. *)
Definition date_key (dt : datetime) : Z :=
  (year dt * 12 + (month dt - 1)) * 31 + (day dt - 1).

Definition date_lt (a b : datetime) : Prop := date_key a < date_key b.
Definition date_le (a b : datetime) : Prop := date_key a <= date_key b.

(** Months since year 0: the calendar month a date lies in. *)
Definition month_ordinal (dt : datetime) : Z := year dt * 12 + (month dt - 1).

Definition valid_date (dt : datetime) : Prop :=
  MINYEAR <= year dt <= MAXYEAR /\ 1 <= month dt <= 12
  /\ 1 <= day dt <= monthrange_days (year dt) (month dt).

(** The first two lines of every [process_month]:
    [month_start = start_date + relativedelta(months=month_index)]
    [month_end = month_start + relativedelta(months=1)] *)
Definition month_bounds (start_date : datetime) (month_index : Z)
  : result (datetime * datetime) :=
  rbind (add start_date (relativedelta_months month_index)) (fun month_start =>
  rbind (add month_start (relativedelta_months 1)) (fun month_end =>
  Ok (month_start, month_end))).

(** [start_date = end_date - relativedelta(months=12)] *)
Definition window_start (end_date : datetime) : result datetime :=
  sub end_date (relativedelta_months 12).

(** The twelve intervals the tasks [range(12)] query, in task order. *)
Definition monthly_tasks (now : datetime) : result (list (datetime * datetime)) :=
  rbind (window_start now) (fun start_date =>
  fold_right
    (fun i acc =>
       rbind (month_bounds start_date (Z.of_nat i)) (fun iv =>
       rbind acc (fun ivs => Ok (iv :: ivs))))
    (Ok []) (seq 0 12)).

End Datetime.
Import Datetime.

(* ================================================================= *)
(** ** The Earth Engine client: lazy expressions and remote calls *)

Module EE.

(** [ee.Geometry.Polygon(coords)], [ee.Geometry.Point(coords)] *)
Inductive Geometry : Type :=
| Polygon (coords : pyval)
| Point (coords : pyval).

(** [ee.Filter.lt(name, value)] *)
Inductive Filter : Type :=
| Filter_lt (name : string) (value : Z).

(** The per-image functions the views map over a collection. *)
Inductive Mapper : Type := maskS2SCL | addNDVI.

Inductive Collection : Type :=
| ImageCollection (id : string)
| filterBounds (c : Collection) (g : Geometry)
| filterDate (c : Collection) (d1 d2 : string)
| filter (c : Collection) (f : Filter)
| map_over (c : Collection) (f : Mapper)
| select (c : Collection) (bands : list string).

(** [mosaic tiles] stands for
    [ee.ImageCollection.fromImages(tiles).mosaic()]. *)
#[warnings="-register-all"]
Inductive Image : Type :=
| median (c : Collection)
| constant (v : Q)
| rename (i : Image) (name : string)
| clip (i : Image) (g : Geometry)
| mosaic (tiles : list Image)
| neq (i : Image) (v : Q)
| updateMask (i mask : Image)
| multiply (i : Image) (q : Q)
| subtract (i : Image) (q : Q).

(** Server-side values the views fetch with [getInfo()].
    [reduceRegion] always uses the reducer
    [ee.Reducer.mean().combine(reducer2=ee.Reducer.minMax(), sharedInputs=True)];
    [sample_size i p s] is [i.sample(p, s).size()] and
    [sample_first_get i p s k] is [i.sample(p, s).first().get(k)]. *)
Inductive Computed : Type :=
| size (c : Collection)
| reduceRegion (i : Image) (geometry : Geometry) (scale : Z) (maxPixels : Z)
| sample_size (i : Image) (region : Geometry) (scale : Z)
| sample_first_get (i : Image) (region : Geometry) (scale : Z) (key : string)
| getRegion (c : Collection) (g : Geometry) (scale : Z).

(** A remote call, as it appears in the trace. *)
Inductive Event : Type :=
| GetInfo (c : Computed)
| GetMapId (i : Image) (vis_params : pyval).

Definition Trace : Type := list Event.

(** What the views cannot decide themselves: how [float] reads a str,
    which objects the client library refuses to build (it raises), and
    what the servers answer. The answers depend on the request only: the
    service is a deterministic, stateless stub. *)
Record Env : Type := mk_Env {
  float_of_str : string -> option Q;
  geometry_error : Geometry -> option exn;
  image_error : Image -> option exn;
  getInfo_reply : Computed -> result pyval;
  getMapId_reply : Image -> pyval -> result string
}.

(** Computations that may raise and that record their remote calls. *)
Definition M (A : Type) : Type := (result A * Trace)%type.

Definition ret {A} (a : A) : M A := (Ok a, []).

Definition raise {A} (e : exn) : M A := (Raise e, []).

Definition lift {A} (r : result A) : M A := (r, []).

Definition bind {A B} (m : M A) (k : A -> M B) : M B :=
  match m with
  | (Ok a, t) => let (r, t') := k a in (r, (t ++ t')%list)
  | (Raise e, t) => (Raise e, t)
  end.

(** [try: m  except Exception as e: handler e] *)
Definition try_except {A} (m : M A) (handler : exn -> M A) : M A :=
  match m with
  | (Ok a, t) => (Ok a, t)
  | (Raise e, t) => let (r, t') := handler e in (r, (t ++ t')%list)
  end.

Definition build_geometry (env : Env) (g : Geometry) : M Geometry :=
  match geometry_error env g with
  | Some e => raise e
  | None => ret g
  end.

Definition build_image (env : Env) (i : Image) : M Image :=
  match image_error env i with
  | Some e => raise e
  | None => ret i
  end.

(** [c.getInfo()] *)
Definition getInfo (env : Env) (c : Computed) : M pyval :=
  (getInfo_reply env c, [GetInfo c]).

(** [i.getMapId(vis_params)['tile_fetcher'].url_format] *)
Definition getMapId (env : Env) (i : Image) (vis_params : pyval) : M string :=
  (getMapId_reply env i vis_params, [GetMapId i vis_params]).

End EE.
Import EE.

Declare Scope monad_scope.
Delimit Scope monad_scope with monad.
Notation "x <- m ;; k" := (bind m (fun x => k))
  (at level 61, m at next level, right associativity) : monad_scope.
Notation "m ;;; k" := (bind m (fun _ => k))
  (at level 61, right associativity) : monad_scope.
Local Open Scope monad_scope.

(** [rest_framework.response.Response(data, status=...)] *)
Record Response : Type := mk_Response { data : pyval; status : Z }.

Definition error_response (msg : string) (code : Z) : Response :=
  {| data := PDict [("success", PBool false); ("error", PStr msg)];
     status := code |}.

(* ================================================================= *)
(** ** The bounded worker pool and the fan-out over the twelve months *)

Module Pool.

(** One run of the pool is determined by where (if anywhere) submitting
    fails and by which of the tasks in flight finishes next. *)
Record Schedule : Type := mk_Schedule {
  fail_at : option nat;
  picks : list nat
}.

Fixpoint remove_nth {A} (n : nat) (l : list A) : list A :=
  match n, l with
  | _, [] => []
  | O, _ :: t => t
  | S n', x :: t => x :: remove_nth n' t
  end.

(** The workers take tasks from the queue in submission order, so the
    tasks in flight are the first [max_workers] unfinished ones; the
    schedule picks which of them completes next, and its remote calls
    enter the trace at that moment. The result of every completed task
    is stored under its submission index. *)
Fixpoint run_pool {A} (fuel max_workers : nat) (picks : list nat)
  (queue : list (nat * M A)) : list (nat * result A) * Trace :=
  match fuel with
  | O => ([], [])
  | S fuel' =>
      let in_flight := firstn max_workers queue in
      let k := (hd O picks mod List.length in_flight)%nat in
      match nth_error in_flight k with
      | None => ([], [])
      | Some (i, task) =>
          let (futures, trace) :=
            run_pool fuel' max_workers (tl picks) (remove_nth k queue) in
          ((i, fst task) :: futures, (snd task ++ trace)%list)
      end
  end.

Fixpoint future_of {A} (i : nat) (futures : list (nat * result A))
  : result A :=
  match futures with
  | [] => Raise (Exn RuntimeError "future was never run")
  | (j, r) :: rest => if (i =? j)%nat then r else future_of i rest
  end.

(** [[future.result() for future in futures]]: results in submission
    order; the first exception met is raised. *)
Fixpoint results_in_order {A} (indices : list nat)
  (futures : list (nat * result A)) : result (list A) :=
  match indices with
  | [] => Ok []
  | i :: rest =>
      rbind (future_of i futures) (fun r =>
      rbind (results_in_order rest futures) (fun rs => Ok (r :: rs)))
  end.

Definition submit_fails (sched : Schedule) (n : nat) : bool :=
  match fail_at sched with
  | Some k => (k <? n)%nat
  | None => false
  end.

(** [with ThreadPoolExecutor(max_workers=w) as executor:]
    [    futures = [executor.submit(task) for task in tasks]]
    [    results = [future.result() for future in futures]]
    Leaving the [with] block waits for every submitted task, also when
    the block is left by an exception. *)
Definition ThreadPoolExecutor_run {A} (max_workers : nat) (sched : Schedule)
  (tasks : list (M A)) : M (list A) :=
  if (max_workers =? 0)%nat then
    raise (Exn ValueError "max_workers must be greater than 0")
  else
    let n := List.length tasks in
    let indexed := combine (seq 0 n) tasks in
    let submitted :=
      if submit_fails sched n
      then firstn (match fail_at sched with Some k => k | None => n end) indexed
      else indexed in
    let (futures, trace) :=
      run_pool (List.length submitted) max_workers (picks sched) submitted in
    if submit_fails sched n
    then (Raise (Exn RuntimeError "can't start new thread"), trace)
    else (results_in_order (seq 0 n) futures, trace).

(** [monthly_layers = []]
    [for i in range(12): monthly_layers.append(process_month(i))] *)
Fixpoint for_append {A} (f : nat -> M A) (indices : list nat) (acc : list A)
  : M (list A) :=
  match indices with
  | [] => ret acc
  | i :: rest => r <- f i ;; for_append f rest (acc ++ [r])%list
  end.

(** Running [f] on the indices strictly one after the other, in list
    order: the results in that order, or the first exception; the trace
    is the trace of each call in turn. *)
Fixpoint in_order {A} (f : nat -> M A) (indices : list nat) : M (list A) :=
  match indices with
  | [] => ret []
  | i :: rest => r <- f i ;; rs <- in_order f rest ;; ret (r :: rs)
  end.

Definition months : list nat := [0; 1; 2; 3; 4; 5; 6; 7; 8; 9; 10; 11]%nat.

(** The [try] / [except] around the pool that every 12-month view has. *)
Definition fan_out {A} (max_workers : nat) (sched : Schedule)
  (process_month : nat -> M A) : M (list A) :=
  try_except
    (ThreadPoolExecutor_run max_workers sched (map process_month (seq 0 12)))
    (fun _ => for_append process_month (seq 0 12) []).

End Pool.
Import Pool.

(* ================================================================= *)
(** ** The tiling grid (the local function [create_grid_tiles], which
       has the same text in both Amazon views) *)

Module Grid.

Definition vertex (x y : Q) : pyval := PList [PNum x; PNum y].

(** [tile_bounds] of the loop body. *)
Definition tile_bounds (lon lat lon_step lat_step : Q) : pyval :=
  PList [PList [vertex lon lat;
                vertex lon (lat + lat_step);
                vertex (lon + lon_step) (lat + lat_step);
                vertex (lon + lon_step) lat;
                vertex lon lat]].

(** [while lat < max_lat: tiles.append(...); lat += lat_step].
    [None] stands for a loop that has not finished within [fuel]
    iterations. *)
Fixpoint lat_loop (fuel : nat) (lon lat max_lat lon_step lat_step : Q)
  (tiles : list Geometry) {struct fuel} : option (list Geometry) :=
  if Qlt_le_dec lat max_lat then
    match fuel with
    | O => None
    | S fuel' =>
        lat_loop fuel' lon (lat + lat_step) max_lat lon_step lat_step
          (tiles ++ [Polygon (tile_bounds lon lat lon_step lat_step)])%list
    end
  else Some tiles.

(** [while lon < max_lon: lat = min_lat; <inner loop>; lon += lon_step] *)
Fixpoint lon_loop (fuel lat_fuel : nat)
  (lon max_lon min_lat max_lat lon_step lat_step : Q)
  (tiles : list Geometry) {struct fuel} : option (list Geometry) :=
  if Qlt_le_dec lon max_lon then
    match fuel with
    | O => None
    | S fuel' =>
        match lat_loop lat_fuel lon min_lat max_lat lon_step lat_step tiles with
        | None => None
        | Some tiles' =>
            lon_loop fuel' lat_fuel (lon + lon_step) max_lon min_lat max_lat
              lon_step lat_step tiles'
        end
    end
  else Some tiles.

(** Iterations a loop from [lo] up to [hi] by [step] can need. *)
Definition steps (lo hi step : Q) : nat :=
  Z.to_nat (Qceiling ((hi - lo) / step)).

Definition create_grid_tiles (min_lon max_lon min_lat max_lat tile_size : Q)
  : option (list Geometry) :=
  let lon_step := tile_size in
  let lat_step := tile_size in
  lon_loop (steps min_lon max_lon lon_step) (steps min_lat max_lat lat_step)
    min_lon max_lon min_lat max_lat lon_step lat_step [].




(** [amazon_bounds], the ring both Amazon views start from. *)
Definition amazon_bounds : pyval :=
  PList [PList [vertex (-74) (-18); vertex (-74) 12; vertex (-34) 12;
                vertex (-34) (-18); vertex (-74) (-18)]].

(** [grid_tiles = create_grid_tiles(-74.0, -34.0, -18.0, 12.0, 5.0)] *)
Definition grid_tiles : list Geometry :=
  match create_grid_tiles (-74) (-34) (-18) 12 5 with
  | Some tiles => tiles
  | None => []
  end.

(** The tile loop of [process_month]:
    [for i, tile in enumerate(grid_tiles):]
    [    try: tile_images.append(process_tile_month(tile, ...))]
    [    except Exception: tile_images.append(<blank image clipped to tile>)] *)
Fixpoint tile_loop (env : Env) (process_tile : Geometry -> M Image)
  (empty_tile : Geometry -> Image) (tiles : list Geometry)
  (tile_images : list Image) : M (list Image) :=
  match tiles with
  | [] => ret tile_images
  | tile :: rest =>
      img <- try_except (process_tile tile)
               (fun _ => build_image env (empty_tile tile)) ;;
      tile_loop env process_tile empty_tile rest (tile_images ++ [img])%list
  end.

End Grid.
Import Grid.

Definition S2 : string := "COPERNICUS/S2_SR_HARMONIZED".
Definition MODIS : string := "MODIS/061/MOD11A2".
Definition CLOUDY : string := "CLOUDY_PIXEL_PERCENTAGE".

Definition str_list (l : list string) : pyval := PList (map PStr l).

(* ================================================================= *)
(** ** AmazonNDVIAPI *)

Module AmazonNDVIAPI.

Definition max_workers : nat := 3.

Definition aoi : Geometry := Polygon amazon_bounds.

(** The collection the [try] block of [process_tile_month] builds. *)
Definition s2_tile (tile : Geometry) (month_start month_end : datetime)
  : Collection :=
  select
    (map_over
      (map_over
        (filter
          (filterDate (filterBounds (ImageCollection S2) tile)
             (strftime_Ymd month_start) (strftime_Ymd month_end))
          (Filter_lt CLOUDY 30))
        maskS2SCL)
      addNDVI)
    ["NDVI"].

Definition blank (tile : Geometry) : Image :=
  clip (rename (constant 0) "NDVI") tile.

Definition process_tile_month (env : Env) (tile : Geometry)
  (month_start month_end : datetime) : M Image :=
  try_except
    (build_image env (clip (median (s2_tile tile month_start month_end)) tile))
    (fun _ => build_image env (blank tile)).

(** The whole-region query of the [else] branch. *)
Definition s2_monthly (month_start month_end : datetime) : Collection :=
  s2_tile aoi month_start month_end.

(** [process_month] up to the assignment of [merged_ndvi]; the tile
    images are returned too, for [len(tile_images)]. *)
Definition assemble (env : Env) (tiles : list Geometry)
  (month_start month_end : datetime) : M (list Image * Image) :=
  tile_images <-
    tile_loop env (fun tile => process_tile_month env tile month_start month_end)
      blank tiles [] ;;
  match tile_images with
  | _ :: _ =>
      merged_ndvi <- build_image env (clip (mosaic tile_images) aoi) ;;
      merged_ndvi <- build_image env (updateMask merged_ndvi (neq merged_ndvi 0)) ;;
      ret (tile_images, merged_ndvi)
  | [] =>
      merged_ndvi <-
        build_image env (clip (median (s2_monthly month_start month_end)) aoi) ;;
      ret (tile_images, merged_ndvi)
  end.

Definition palette : list string := ["#ff0000"; "#ffff00"; "#00ff00"].

Definition vis_params : pyval :=
  PDict [("min", PNum 0); ("max", PNum 1); ("palette", str_list palette)].

Definition process_month (env : Env) (tiles : list Geometry)
  (start_date : datetime) (month_index : nat) : M pyval :=
  b <- lift (month_bounds start_date (Z.of_nat month_index)) ;;
  let (month_start, month_end) := b in
  a <- assemble env tiles month_start month_end ;;
  let (tile_images, merged_ndvi) := a in
  tile_url <- getMapId env merged_ndvi vis_params ;;
  ret (PDict [("month", PStr (strftime_Ym month_start));
              ("month_name", PStr (strftime_BY month_start));
              ("tile_url", PStr tile_url);
              ("vis_params", vis_params);
              ("data_type", PStr "NDVI");
              ("tiles_processed", PNum (inject_Z (Z.of_nat (List.length tile_images))));
              ("grid_coverage", PStr "complete")]).

Definition legend : pyval :=
  PDict [("title", PStr "NDVI Values"); ("min", PNum 0); ("max", PNum 1);
         ("colors", str_list palette);
         ("labels", str_list ["Low Vegetation"; "Moderate Vegetation";
                              "High Vegetation"])].

Definition get (env : Env) (sched : Schedule) (now : datetime) : M Response :=
  try_except
    (let end_date := now in
     start_date <- lift (window_start end_date) ;;
     monthly_layers <-
       fan_out max_workers sched (process_month env grid_tiles start_date) ;;
     ret {| data :=
              PDict [("success", PBool true);
                     ("region", PStr "Amazon Rainforest");
                     ("data_type", PStr "NDVI");
                     ("time_period",
                      PStr (strftime_Ym start_date ++ " to " ++ strftime_Ym end_date));
                     ("total_layers", PNum 12);
                     ("monthly_layers", PList monthly_layers);
                     ("legend", legend);
                     ("aoi_bounds", amazon_bounds);
                     ("processing_info",
                      PDict [("grid_tiles",
                              PNum (inject_Z (Z.of_nat (List.length grid_tiles))));
                             ("tile_size_degrees", PNum 5);
                             ("coverage_method", PStr "grid-based_tiling")])];
            status := 200 |})
    (fun e => ret (error_response (exn_msg e) 500)).

End AmazonNDVIAPI.

(* ================================================================= *)
(** ** AmazonLSTAPI *)

Module AmazonLSTAPI.

Definition max_workers : nat := 3.

Definition aoi : Geometry := Polygon amazon_bounds.

Definition scale_factor : Q := 0.02.
Definition kelvin_offset : Q := 273.15.

(** The collection the [try] block of [process_tile_month] builds. *)
Definition lst_tile (tile : Geometry) (month_start month_end : datetime)
  : Collection :=
  select
    (filterDate (filterBounds (ImageCollection MODIS) tile)
       (strftime_Ymd month_start) (strftime_Ymd month_end))
    ["LST_Day_1km"].

(** Median of the collection, scaled and converted to Celsius. *)
Definition celsius (c : Collection) : Image :=
  subtract (multiply (median c) scale_factor) kelvin_offset.

Definition blank (tile : Geometry) : Image :=
  clip (rename (constant 0) "LST_Day_1km") tile.

Definition process_tile_month (env : Env) (tile : Geometry)
  (month_start month_end : datetime) : M Image :=
  try_except
    (build_image env (clip (celsius (lst_tile tile month_start month_end)) tile))
    (fun _ => build_image env (blank tile)).

(** The whole-region query of the [else] branch. *)
Definition lst_collection (month_start month_end : datetime) : Collection :=
  lst_tile aoi month_start month_end.

(** [process_month] up to the assignment of [merged_lst]. *)
Definition assemble (env : Env) (tiles : list Geometry)
  (month_start month_end : datetime) : M (list Image * Image) :=
  tile_images <-
    tile_loop env (fun tile => process_tile_month env tile month_start month_end)
      blank tiles [] ;;
  match tile_images with
  | _ :: _ =>
      merged_lst <- build_image env (clip (mosaic tile_images) aoi) ;;
      merged_lst <- build_image env (updateMask merged_lst (neq merged_lst 0)) ;;
      ret (tile_images, merged_lst)
  | [] =>
      merged_lst <-
        build_image env (clip (celsius (lst_collection month_start month_end)) aoi) ;;
      ret (tile_images, merged_lst)
  end.

Definition palette : list string :=
  ["#313695"; "#4575b4"; "#74add1"; "#abd9e9"; "#e0f3f8";
   "#fee090"; "#fdae61"; "#f46d43"; "#d73027"; "#a50026"].

Definition vis_params : pyval :=
  PDict [("min", PNum 20); ("max", PNum 40); ("palette", str_list palette)].

Definition process_month (env : Env) (tiles : list Geometry)
  (start_date : datetime) (month_index : nat) : M pyval :=
  b <- lift (month_bounds start_date (Z.of_nat month_index)) ;;
  let (month_start, month_end) := b in
  a <- assemble env tiles month_start month_end ;;
  let (tile_images, merged_lst) := a in
  tile_url <- getMapId env merged_lst vis_params ;;
  ret (PDict [("month", PStr (strftime_Ym month_start));
              ("month_name", PStr (strftime_BY month_start));
              ("tile_url", PStr tile_url);
              ("vis_params", vis_params);
              ("data_type", PStr "LST");
              ("unit", PStr "Celsius");
              ("tiles_processed", PNum (inject_Z (Z.of_nat (List.length tile_images))));
              ("grid_coverage", PStr "complete")]).

(** The non-ASCII degree sign of the source labels is written [deg]. *)
Definition legend : pyval :=
  PDict [("title", PStr "Land Surface Temperature (degC)");
         ("min", PNum 20); ("max", PNum 40);
         ("colors", str_list palette);
         ("labels", str_list ["Cool (20degC)"; "Moderate (25degC)";
                              "Warm (30degC)"; "Hot (35degC)";
                              "Very Hot (40degC)"])].

Definition get (env : Env) (sched : Schedule) (now : datetime) : M Response :=
  try_except
    (let end_date := now in
     start_date <- lift (window_start end_date) ;;
     monthly_layers <-
       fan_out max_workers sched (process_month env grid_tiles start_date) ;;
     ret {| data :=
              PDict [("success", PBool true);
                     ("region", PStr "Amazon Rainforest");
                     ("data_type", PStr "LST (Land Surface Temperature)");
                     ("time_period",
                      PStr (strftime_Ym start_date ++ " to " ++ strftime_Ym end_date));
                     ("total_layers", PNum 12);
                     ("monthly_layers", PList monthly_layers);
                     ("legend", legend);
                     ("aoi_bounds", amazon_bounds);
                     ("processing_info",
                      PDict [("grid_tiles",
                              PNum (inject_Z (Z.of_nat (List.length grid_tiles))));
                             ("tile_size_degrees", PNum 5);
                             ("coverage_method", PStr "grid-based_tiling")])];
            status := 200 |})
    (fun e => ret (error_response (exn_msg e) 500)).

End AmazonLSTAPI.

(* ================================================================= *)
(** ** Pieces the custom-area and point views share word for word *)

(** [round(v, n) if v is not None else None] *)
Definition round_or_None (v : pyval) (n : nat) : result pyval :=
  if is_not_None v then Py.round v n else Ok PNone.

(** [not isinstance(a, dict) or 'geometry' not in a
     or 'coordinates' not in a['geometry']] *)
Definition invalid_aoi (aoi_geojson : pyval) : result bool :=
  if negb (is_dict aoi_geojson) then Ok true
  else
    rbind (contains "geometry" aoi_geojson) (fun has_geometry =>
    if negb has_geometry then Ok true
    else
      rbind (getitem_str aoi_geojson "geometry") (fun g =>
      rbind (contains "coordinates" g) (fun has_coordinates =>
      Ok (negb has_coordinates)))).

(** [aoi_geojson['geometry']['coordinates']] *)
Definition aoi_coordinates (aoi_geojson : pyval) : result pyval :=
  rbind (getitem_str aoi_geojson "geometry") (fun g =>
  getitem_str g "coordinates").

(** The statistics entry of a month. *)
Definition statistics (mean_val min_val max_val : pyval) (digits : nat)
  : result pyval :=
  rbind (round_or_None mean_val digits) (fun mean_r =>
  rbind (round_or_None min_val digits) (fun min_r =>
  rbind (round_or_None max_val digits) (fun max_r =>
  Ok (PDict [("mean", mean_r); ("min", min_r); ("max", max_r)])))).

(* ================================================================= *)
(** ** CustomNDVIAPI *)

Module CustomNDVIAPI.

Definition max_workers : nat := 4.

Definition s2_monthly (aoi : Geometry) (month_start month_end : datetime)
  : Collection :=
  select
    (map_over
      (map_over
        (filter
          (filterDate (filterBounds (ImageCollection S2) aoi)
             (strftime_Ymd month_start) (strftime_Ymd month_end))
          (Filter_lt CLOUDY 100))
        maskS2SCL)
      addNDVI)
    ["NDVI"].

Definition process_month (env : Env) (aoi : Geometry) (start_date : datetime)
  (month_index : nat) : M pyval :=
  b <- lift (month_bounds start_date (Z.of_nat month_index)) ;;
  let (month_start, month_end) := b in
  let s2 := s2_monthly aoi month_start month_end in
  image_count <- getInfo env (size s2) ;;
  ndvi_image <- build_image env (clip (median s2) aoi) ;;
  stats <- getInfo env (reduceRegion ndvi_image aoi 10 (10 ^ 9)) ;;
  mean_val <- lift (method_get stats "NDVI_mean") ;;
  min_val <- lift (method_get stats "NDVI_min") ;;
  max_val <- lift (method_get stats "NDVI_max") ;;
  st <- lift (statistics mean_val min_val max_val 4) ;;
  ret (PDict [("month", PStr (strftime_Ym month_start));
              ("month_name", PStr (strftime_BY month_start));
              ("data_type", PStr "NDVI");
              ("statistics", st);
              ("data_available", PBool (is_not_None mean_val))]).

Definition post (env : Env) (sched : Schedule) (now : datetime)
  (request_data : list (string * pyval)) : M Response :=
  try_except
    (let aoi_geojson := dict_get request_data "geometry" in
     if negb (truthy aoi_geojson) then
       ret (error_response "Missing geometry parameter" 400)
     else
       invalid <- lift (invalid_aoi aoi_geojson) ;;
       if (invalid : bool) then ret (error_response "Invalid AOI format" 400)
       else
         coordinates <- lift (aoi_coordinates aoi_geojson) ;;
         aoi <- build_geometry env (Polygon coordinates) ;;
         let end_date := now in
         start_date <- lift (window_start end_date) ;;
         monthly_layers <-
           fan_out max_workers sched (process_month env aoi start_date) ;;
         aoi_bounds <- lift (aoi_coordinates aoi_geojson) ;;
         ret {| data :=
                  PDict [("success", PBool true);
                         ("region", PStr "Custom AOI");
                         ("data_type", PStr "NDVI");
                         ("time_period",
                          PStr (strftime_Ym start_date ++ " to "
                                ++ strftime_Ym end_date));
                         ("total_months", PNum 12);
                         ("monthly_statistics", PList monthly_layers);
                         ("aoi_bounds", aoi_bounds)];
                status := 200 |})
    (fun e => ret (error_response (exn_msg e) 500)).

End CustomNDVIAPI.

(* ================================================================= *)
(** ** CustomLSTAPI *)

Module CustomLSTAPI.

Definition max_workers : nat := 4.

Definition lst_collection (aoi : Geometry) (month_start month_end : datetime)
  : Collection :=
  select
    (filterDate (filterBounds (ImageCollection MODIS) aoi)
       (strftime_Ymd month_start) (strftime_Ymd month_end))
    ["LST_Day_1km"].

Definition process_month (env : Env) (aoi : Geometry) (start_date : datetime)
  (month_index : nat) : M pyval :=
  b <- lift (month_bounds start_date (Z.of_nat month_index)) ;;
  let (month_start, month_end) := b in
  lst_image <-
    build_image env
      (clip (AmazonLSTAPI.celsius (lst_collection aoi month_start month_end)) aoi) ;;
  stats <- getInfo env (reduceRegion lst_image aoi 1000 (10 ^ 9)) ;;
  mean_val <- lift (method_get stats "LST_Day_1km_mean") ;;
  min_val <- lift (method_get stats "LST_Day_1km_min") ;;
  max_val <- lift (method_get stats "LST_Day_1km_max") ;;
  st <- lift (statistics mean_val min_val max_val 2) ;;
  ret (PDict [("month", PStr (strftime_Ym month_start));
              ("month_name", PStr (strftime_BY month_start));
              ("data_type", PStr "LST");
              ("unit", PStr "Celsius");
              ("statistics", st);
              ("data_available", PBool (is_not_None mean_val))]).

Definition post (env : Env) (sched : Schedule) (now : datetime)
  (request_data : list (string * pyval)) : M Response :=
  try_except
    (let aoi_geojson := dict_get request_data "geometry" in
     if negb (truthy aoi_geojson) then
       ret (error_response "Missing geometry parameter" 400)
     else
       invalid <- lift (invalid_aoi aoi_geojson) ;;
       if (invalid : bool) then ret (error_response "Invalid AOI format" 400)
       else
         coordinates <- lift (aoi_coordinates aoi_geojson) ;;
         aoi <- build_geometry env (Polygon coordinates) ;;
         let end_date := now in
         start_date <- lift (window_start end_date) ;;
         monthly_layers <-
           fan_out max_workers sched (process_month env aoi start_date) ;;
         aoi_bounds <- lift (aoi_coordinates aoi_geojson) ;;
         ret {| data :=
                  PDict [("success", PBool true);
                         ("region", PStr "Custom AOI");
                         ("data_type", PStr "LST (Land Surface Temperature)");
                         ("time_period",
                          PStr (strftime_Ym start_date ++ " to "
                                ++ strftime_Ym end_date));
                         ("total_months", PNum 12);
                         ("monthly_statistics", PList monthly_layers);
                         ("aoi_bounds", aoi_bounds)];
                status := 200 |})
    (fun e => ret (error_response (exn_msg e) 500)).

End CustomLSTAPI.

(* ================================================================= *)
(** ** The point views: request parsing they have in common *)

(** Outcome of the validation part of a view: an early [return] of a
    response, or the values the rest of the view goes on with. *)
Inductive validated (A : Type) : Type :=
| Rejected (r : Response)
| Accepted (a : A).
Arguments Rejected {A} r.
Arguments Accepted {A} a.

(** The [if] / [elif] / [else] on [latitude], [longitude] and [geometry];
    on success the pair is [(lat, lon)]. *)
Definition resolve_point (env : Env) (latitude longitude geometry : pyval)
  : result (validated (pyval * pyval)) :=
  if is_not_None latitude && is_not_None longitude then
    match rbind (float (float_of_str env) latitude) (fun lat =>
          rbind (float (float_of_str env) longitude) (fun lon =>
          Ok (lat, lon))) with
    | Ok (lat, lon) => Ok (Accepted (PNum lat, PNum lon))
    | Raise e =>
        if is_Value_or_TypeError e then
          Ok (Rejected (error_response "Invalid latitude or longitude format" 400))
        else Raise e
    end
  else if is_not_None geometry then
    rbind (if is_dict geometry then contains "geometry" geometry else Ok false)
      (fun is_feature =>
    if (is_feature : bool) then
      rbind (getitem_str geometry "geometry") (fun geom_data =>
      rbind (method_get geom_data "type") (fun type =>
      rbind (if eq_str type "Point" then contains "coordinates" geom_data
             else Ok false) (fun is_point =>
      if (is_point : bool) then
        rbind (getitem_str geom_data "coordinates") (fun coords =>
        rbind (len coords) (fun n =>
        if 2 <=? n then
          rbind (getitem_nat coords 0) (fun lon =>
          rbind (getitem_nat coords 1) (fun lat =>
          Ok (Accepted (lat, lon))))
        else Ok (Rejected (error_response "Invalid coordinates format" 400))))
      else
        Ok (Rejected
              (error_response "Invalid geometry format - expected Point" 400)))))
    else Ok (Rejected (error_response "Invalid geometry object format" 400)))
  else
    Ok (Rejected
          (error_response "Missing latitude/longitude or geometry parameter" 400)).

(** [if not month: return ...] and the [try] around [strptime]. *)
Definition resolve_month (month : pyval) : result (validated datetime) :=
  if negb (truthy month) then
    Ok (Rejected (error_response "Missing month parameter" 400))
  else
    match strptime_Ym month with
    | Ok month_date => Ok (Accepted month_date)
    | Raise e =>
        if is_Value_or_TypeError e then
          Ok (Rejected (error_response "Invalid month format (use YYYY-MM)" 400))
        else Raise e
    end.

(** Everything a point view does before it builds its first Earth Engine
    object. *)
Definition validate_point_request (env : Env)
  (request_data : list (string * pyval))
  : result (validated (pyval * pyval * datetime)) :=
  let latitude := dict_get request_data "latitude" in
  let longitude := dict_get request_data "longitude" in
  let geometry := dict_get request_data "geometry" in
  let month := dict_get request_data "month" in
  rbind (resolve_point env latitude longitude geometry) (fun p =>
  match p with
  | Rejected r => Ok (Rejected r)
  | Accepted (lat, lon) =>
      rbind (resolve_month month) (fun m =>
      match m with
      | Rejected r => Ok (Rejected r)
      | Accepted month_date => Ok (Accepted (lat, lon, month_date))
      end)
  end).

(** [sampled = image.sample(point, scale)] and the null checks after it,
    inside their own [try] / [except]. *)
Definition sample_value (env : Env) (image : Image) (point : Geometry)
  (scale : Z) (band : string) : M pyval :=
  try_except
    (sample_size <- getInfo env (EE.sample_size image point scale) ;;
     positive <- lift (gt0 sample_size) ;;
     if (positive : bool)
     then getInfo env (sample_first_get image point scale band)
     else ret PNone)
    (fun _ => ret PNone).

(** [for row in rows: if row[4] is not None: values.append(convert(row[4]))] *)
Fixpoint collect_rows (convert : pyval -> result pyval) (rows : list pyval)
  (values : list pyval) : result (list pyval) :=
  match rows with
  | [] => Ok values
  | row :: rest =>
      rbind (getitem_nat row 4) (fun cell =>
      if is_not_None cell then
        rbind (convert cell) (fun v =>
        collect_rows convert rest (values ++ [v])%list)
      else collect_rows convert rest values)
  end.

(** The second [try] / [except]: all values of the month at the point. *)
Definition region_values (env : Env) (c : Collection) (point : Geometry)
  (scale : Z) (convert : pyval -> result pyval) : M (list pyval) :=
  try_except
    (all_values <- getInfo env (getRegion c point scale) ;;
     n <- lift (len all_values) ;;
     if 1 <? n then
       rows <- lift (tail_items all_values) ;;
       lift (collect_rows convert rows [])
     else ret [])
    (fun _ => ret []).

(* ================================================================= *)
(** ** PointNDVIMonthlyAPI *)

Module PointNDVIMonthlyAPI.

Definition s2_monthly (point : Geometry) (month_start month_end : datetime)
  : Collection :=
  select
    (map_over
      (map_over
        (filter
          (filterDate (filterBounds (ImageCollection S2) point)
             (strftime_Ymd month_start) (strftime_Ymd month_end))
          (Filter_lt CLOUDY 50))
        maskS2SCL)
      addNDVI)
    ["NDVI"].

Definition post (env : Env) (request_data : list (string * pyval))
  : M Response :=
  try_except
    (v <- lift (validate_point_request env request_data) ;;
     match v with
     | Rejected r => ret r
     | Accepted (lat, lon, month_date) =>
         let month := dict_get request_data "month" in
         point <- build_geometry env (Point (PList [lon; lat])) ;;
         let month_start := month_date in
         month_end <- lift (add month_start (relativedelta_months 1)) ;;
         let s2 := s2_monthly point month_start month_end in
         image_count <- getInfo env (size s2) ;;
         ndvi_image <- build_image env (median s2) ;;
         ndvi_value <- sample_value env ndvi_image point 10 "NDVI" ;;
         ndvi_values <-
           region_values env s2 point 10 (fun cell => Py.round cell 4) ;;
         median_ndvi <- lift (round_or_None ndvi_value 4) ;;
         ret {| data :=
                  PDict [("success", PBool true);
                         ("location",
                          PDict [("latitude", lat); ("longitude", lon)]);
                         ("month", month);
                         ("month_name", PStr (strftime_BY month_start));
                         ("data_type", PStr "NDVI");
                         ("median_ndvi", median_ndvi);
                         ("all_ndvi_values", PList ndvi_values);
                         ("image_count", image_count);
                         ("data_available", PBool (is_not_None ndvi_value))];
                status := 200 |}
     end)
    (fun e => ret (error_response (exn_msg e) 500)).

End PointNDVIMonthlyAPI.

(* ================================================================= *)
(** ** PointLSTMonthlyAPI *)

Module PointLSTMonthlyAPI.

Definition lst_collection (point : Geometry) (month_start month_end : datetime)
  : Collection :=
  select
    (filterDate (filterBounds (ImageCollection MODIS) point)
       (strftime_Ymd month_start) (strftime_Ymd month_end))
    ["LST_Day_1km"].

(** [round((row[4] * 0.02) - 273.15, 2)] *)
Definition to_celsius (cell : pyval) : result pyval :=
  match cell with
  | PNum q => Py.round (PNum (q * 0.02 - 273.15)) 2
  | PBool b => Py.round (PNum ((if b then 1 else 0) * 0.02 - 273.15)) 2
  | _ => Raise (Exn TypeError "can't multiply by a float")
  end.

Definition post (env : Env) (request_data : list (string * pyval))
  : M Response :=
  try_except
    (v <- lift (validate_point_request env request_data) ;;
     match v with
     | Rejected r => ret r
     | Accepted (lat, lon, month_date) =>
         let month := dict_get request_data "month" in
         point <- build_geometry env (Point (PList [lon; lat])) ;;
         let month_start := month_date in
         month_end <- lift (add month_start (relativedelta_months 1)) ;;
         let c := lst_collection point month_start month_end in
         lst_image <- build_image env (AmazonLSTAPI.celsius c) ;;
         lst_value <- sample_value env lst_image point 1000 "LST_Day_1km" ;;
         lst_values <- region_values env c point 1000 to_celsius ;;
         median_lst <- lift (round_or_None lst_value 2) ;;
         ret {| data :=
                  PDict [("success", PBool true);
                         ("location",
                          PDict [("latitude", lat); ("longitude", lon)]);
                         ("month", month);
                         ("month_name", PStr (strftime_BY month_start));
                         ("data_type", PStr "LST (Land Surface Temperature)");
                         ("unit", PStr "Celsius");
                         ("median_lst", median_lst);
                         ("all_lst_values", PList lst_values);
                         ("data_available", PBool (is_not_None lst_value))];
                status := 200 |}
     end)
    (fun e => ret (error_response (exn_msg e) 500)).

End PointLSTMonthlyAPI.

(* ================================================================= *)
(** ** Pixel values of the image expressions *)

Module Pixels.

Section Denotation.

(** The servers' data: which pixels a geometry contains, and the value
    of the median composite of a collection at a pixel ([None] where the
    composite is masked). *)
Variable Pixel : Type.
Variable inside : Geometry -> Pixel -> bool.
Variable composite : Collection -> Pixel -> option Q.

(** Value of an image at a pixel, [None] where it is masked.
    [mosaic] shows the last tile of the list that is not masked at the
    pixel; [neq] yields 1 or 0 and keeps the mask; [updateMask] masks
    the pixels where the mask image is 0 or masked itself. *)
Fixpoint value (i : Image) (p : Pixel) : option Q :=
  match i with
  | median c => composite c p
  | constant v => Some v
  | rename i' _ => value i' p
  | clip i' g => if inside g p then value i' p else None
  | mosaic tiles =>
      fold_left
        (fun below tile =>
           match value tile p with
           | Some v => Some v
           | None => below
           end)
        tiles None
  | neq i' v =>
      match value i' p with
      | Some x => Some (if Qeq_bool x v then 0 else 1)%Q
      | None => None
      end
  | updateMask i' mask =>
      match value i' p, value mask p with
      | Some x, Some k => if Qeq_bool k 0 then None else Some x
      | _, _ => None
      end
  | multiply i' q =>
      match value i' p with
      | Some x => Some (x * q)%Q
      | None => None
      end
  | subtract i' q =>
      match value i' p with
      | Some x => Some (x - q)%Q
      | None => None
      end
  end.

End Denotation.

End Pixels.

(* ================================================================= *)
(** ** Reading the collections back *)



(** Looking into a response body: [lookup d k] is [Some v] exactly when
    the dict [d] has the key [k], with value [v]. *)
Definition lookup (v : pyval) (k : string) : option pyval :=
  match v with
  | PDict d => assoc k d
  | _ => None
  end.

Definition lookup2 (v : pyval) (k1 k2 : string) : option pyval :=
  match lookup v k1 with
  | Some v' => lookup v' k2
  | None => None
  end.

(** The keys of a JSON value with their nesting, values forgotten. *)
#[warnings="-register-all"]
Inductive shape : Type :=
| SLeaf
| SList (items : list shape)
| SDict (fields : list (string * shape)).

Fixpoint shape_of (v : pyval) : shape :=
  match v with
  | PList l => SList (map shape_of l)
  | PDict d =>
      SDict ((fix fields (d : list (string * pyval)) : list (string * shape) :=
                match d with
                | [] => []
                | (k, x) :: d' => (k, shape_of x) :: fields d'
                end) d)
  | _ => SLeaf
  end.

(** The value of the key ["month"] of every entry of a list of monthly
    entries, in list order. *)
Definition month_labels (entries : pyval) : list (option pyval) :=
  match entries with
  | PList l => map (fun entry => lookup entry "month") l
  | _ => []
  end.

(* ================================================================= *)
(** ** Vocabulary of the properties *)

(** The composite of the [if tile_images:] branch: the mosaic of the
    tile images clipped to the region, with its zero pixels masked. *)
Definition masked_mosaic (tile_images : list Image) (aoi : Geometry) : Image :=
  let merged := clip (mosaic tile_images) aoi in
  updateMask merged (neq merged 0).



(** The client builds every blank image, every clipped mosaic and
    every mask of one. *)
Definition builds_mosaics (env : Env) : Prop :=
  (forall band tile,
     image_error env (clip (rename (constant 0) band) tile) = None)
  /\ (forall tile_images aoi,
        image_error env (clip (mosaic tile_images) aoi) = None)
  /\ (forall tile_images aoi,
        image_error env (masked_mosaic tile_images aoi) = None).

(** The list of monthly entries of a response body. *)
Definition monthly_entries (r : Response) : pyval :=
  match lookup (data r) "monthly_layers" with
  | Some l => l
  | None =>
      match lookup (data r) "monthly_statistics" with
      | Some l => l
      | None => PNone
      end
  end.

(** Two invocations answer with the same status, the same order of
    monthly entries and the same JSON shape. *)
Definition same_order_and_shape (a b : M Response) : Prop :=
  exists r1 r2,
    fst a = Ok r1 /\ fst b = Ok r2
    /\ status r1 = status r2
    /\ month_labels (monthly_entries r1) = month_labels (monthly_entries r2)
    /\ shape_of (data r1) = shape_of (data r2).







(** The service reports no sample at the point: the sample is empty,
    or asking for it fails, or its first value is null. *)
Definition no_sample (env : Env) (image : Image) (point : Geometry)
  (scale : Z) (band : string) : Prop :=
  match getInfo_reply env (sample_size image point scale) with
  | Ok n =>
      match gt0 n with
      | Ok true =>
          match getInfo_reply env (sample_first_get image point scale band) with
          | Ok v => v = PNone
          | Raise _ => True
          end
      | _ => True
      end
  | Raise _ => True
  end.

(** The service has no observation to reduce over the area: the three
    statistics of the band come back null. *)
Definition no_statistics (env : Env) (image : Image) (aoi : Geometry)
  (scale : Z) (band : string) : Prop :=
  exists d,
    getInfo_reply env (reduceRegion image aoi scale (10 ^ 9)) = Ok (PDict d)
    /\ dict_get d (band ++ "_mean") = PNone
    /\ dict_get d (band ++ "_min") = PNone
    /\ dict_get d (band ++ "_max") = PNone.

(** [answer] is a month entry of a custom-area view, or the body of a
    point view's 200 response, for a month in which the service had no
    observation. *)
Inductive no_observation_answer (env : Env) (answer : pyval) : Prop :=
| custom_ndvi_month aoi start_date i month_start month_end t :
    month_bounds start_date (Z.of_nat i) = Ok (month_start, month_end) ->
    no_statistics env
      (clip (median (CustomNDVIAPI.s2_monthly aoi month_start month_end)) aoi)
      aoi 10 "NDVI" ->
    CustomNDVIAPI.process_month env aoi start_date i = (Ok answer, t) ->
    no_observation_answer env answer
| custom_lst_month aoi start_date i month_start month_end t :
    month_bounds start_date (Z.of_nat i) = Ok (month_start, month_end) ->
    no_statistics env
      (clip (AmazonLSTAPI.celsius
               (CustomLSTAPI.lst_collection aoi month_start month_end)) aoi)
      aoi 1000 "LST_Day_1km" ->
    CustomLSTAPI.process_month env aoi start_date i = (Ok answer, t) ->
    no_observation_answer env answer
| point_ndvi_month request_data lat lon month_date month_end r t :
    validate_point_request env request_data
    = Ok (Accepted (lat, lon, month_date)) ->
    add month_date (relativedelta_months 1) = Ok month_end ->
    no_sample env
      (median (PointNDVIMonthlyAPI.s2_monthly (Point (PList [lon; lat]))
                 month_date month_end))
      (Point (PList [lon; lat])) 10 "NDVI" ->
    PointNDVIMonthlyAPI.post env request_data = (Ok r, t) ->
    status r = 200 ->
    answer = data r ->
    no_observation_answer env answer
| point_lst_month request_data lat lon month_date month_end r t :
    validate_point_request env request_data
    = Ok (Accepted (lat, lon, month_date)) ->
    add month_date (relativedelta_months 1) = Ok month_end ->
    no_sample env
      (AmazonLSTAPI.celsius
         (PointLSTMonthlyAPI.lst_collection (Point (PList [lon; lat]))
            month_date month_end))
      (Point (PList [lon; lat])) 1000 "LST_Day_1km" ->
    PointLSTMonthlyAPI.post env request_data = (Ok r, t) ->
    status r = 200 ->
    answer = data r ->
    no_observation_answer env answer.

(** The answer carries an explicit null for its value(s) and the flag
    [data_available = False]. *)
Definition encodes_no_data (answer : pyval) : Prop :=
  lookup answer "data_available" = Some (PBool false)
  /\ ((lookup2 answer "statistics" "mean" = Some PNone
       /\ lookup2 answer "statistics" "min" = Some PNone
       /\ lookup2 answer "statistics" "max" = Some PNone)
      \/ lookup answer "median_ndvi" = Some PNone
      \/ lookup answer "median_lst" = Some PNone).

(* ================================================================= *)
(** ** Concrete stubs of the service, used to run the views *)

Module Stub.

Fixpoint digits_value (cs : list ascii) (acc : Z) : option Z :=
  match cs with
  | [] => Some acc
  | c :: rest =>
      if is_digit c then digits_value rest (10 * acc + digit_val c) else None
  end.

(** A reader for integer literals, enough for the examples. *)
Definition read_int (s : string) : option Q :=
  match list_ascii_of_string s with
  | [] => None
  | "-"%char :: ((_ :: _) as cs) =>
      match digits_value cs 0 with
      | Some z => Some (inject_Z (- z))
      | None => None
      end
  | cs =>
      match digits_value cs 0 with
      | Some z => Some (inject_Z z)
      | None => None
      end
  end.

Definition is_position (v : pyval) : bool :=
  match v with
  | PList [PNum _; PNum _] => true
  | _ => false
  end.

Definition is_ring (v : pyval) : bool :=
  match v with
  | PList l => forallb is_position l
  | _ => false
  end.

Definition is_rings (v : pyval) : bool :=
  match v with
  | PList l => forallb is_ring l
  | _ => false
  end.

(** The client library refuses coordinates that are not numbers. *)
Definition check_geometry (g : Geometry) : option exn :=
  match g with
  | Point c =>
      if is_position c then None else Some (Exn EEException "Invalid geometry.")
  | Polygon c =>
      if is_rings c then None else Some (Exn EEException "Invalid geometry.")
  end.

Definition url : string := "https://earthengine.googleapis.com/v1/map/{z}/{x}/{y}".

Definition no_stats : pyval :=
  PDict [("NDVI_mean", PNone); ("NDVI_min", PNone); ("NDVI_max", PNone);
         ("LST_Day_1km_mean", PNone); ("LST_Day_1km_min", PNone);
         ("LST_Day_1km_max", PNone)].

Definition region_header : pyval :=
  PList [PStr "id"; PStr "longitude"; PStr "latitude"; PStr "time"; PStr "band"].

(** A service that has no imagery at all. *)
Definition no_data_reply (c : Computed) : result pyval :=
  match c with
  | size _ => Ok (PNum 0)
  | reduceRegion _ _ _ _ => Ok no_stats
  | sample_size _ _ _ => Ok (PNum 0)
  | sample_first_get _ _ _ _ => Ok PNone
  | getRegion _ _ _ => Ok (PList [region_header])
  end.

Definition quiet : Env :=
  {| float_of_str := read_int;
     geometry_error := check_geometry;
     image_error := fun _ => None;
     getInfo_reply := no_data_reply;
     getMapId_reply := fun _ _ => Ok url |}.

(** A service with imagery everywhere. *)
Definition data_reply (c : Computed) : result pyval :=
  match c with
  | size _ => Ok (PNum 7)
  | reduceRegion _ _ _ _ =>
      Ok (PDict [("NDVI_mean", PNum 0.61234567); ("NDVI_min", PNum 0);
                 ("NDVI_max", PNum 0.9);
                 ("LST_Day_1km_mean", PNum 27.456); ("LST_Day_1km_min", PNum 20);
                 ("LST_Day_1km_max", PNum 35.5)])
  | sample_size _ _ _ => Ok (PNum 1)
  | sample_first_get _ _ _ _ => Ok (PNum 0.53217)
  | getRegion _ _ _ =>
      Ok (PList [region_header;
                 PList [PStr "a"; PNum 1; PNum 2; PNum 3; PNum 0.5];
                 PList [PStr "b"; PNum 1; PNum 2; PNum 4; PNone]])
  end.

Definition sunny : Env :=
  {| float_of_str := read_int;
     geometry_error := check_geometry;
     image_error := fun _ => None;
     getInfo_reply := data_reply;
     getMapId_reply := fun _ _ => Ok url |}.

Definition is_blank (i : Image) : bool :=
  match i with
  | clip (rename (constant _) _) _ => true
  | _ => false
  end.

Definition is_clip (i : Image) : bool :=
  match i with
  | clip _ _ => true
  | _ => false
  end.

(** A client on which every per-tile and per-region query raises, while
    blank images, mosaics and masks can still be built. *)
Definition tiles_down : Env :=
  {| float_of_str := read_int;
     geometry_error := check_geometry;
     image_error := fun i =>
       match i with
       | clip (median _) _ | clip (subtract _ _) _ =>
           Some (Exn EEException "Computation timed out.")
       | _ => None
       end;
     getInfo_reply := no_data_reply;
     getMapId_reply := fun _ _ => Ok url |}.

Definition fifo : Schedule := {| fail_at := None; picks := [] |}.
Definition shuffled : Schedule :=
  {| fail_at := None; picks := [2; 0; 1; 1; 2; 0; 0; 1; 2; 1; 0; 0]%nat |}.
Definition broken_pool : Schedule := {| fail_at := Some 0%nat; picks := [] |}.
Definition breaks_midway : Schedule :=
  {| fail_at := Some 5%nat; picks := [1; 1; 0; 0; 0]%nat |}.

Definition noon (y m d : Z) : datetime :=
  {| year := y; month := m; day := d; hour := 12; minute := 0; second := 0;
     microsecond := 0 |}.

Definition june : datetime := noon 2023 6 15.
Definition july : datetime := noon 2023 7 15.


Definition feature (geom : pyval) : pyval :=
  PDict [("type", PStr "Feature"); ("geometry", geom)].

Definition square_ring : pyval :=
  PList [PList [vertex 0 0; vertex 0 1; vertex 1 1; vertex 1 0; vertex 0 0]].

Definition polygon_request : list (string * pyval) :=
  [("geometry",
    feature (PDict [("type", PStr "Polygon"); ("coordinates", square_ring)]))].



Definition latlon_request (geometry : pyval) : list (string * pyval) :=
  [("latitude", PNum (-3)); ("longitude", PStr "-60");
   ("geometry", geometry); ("month", PStr "2024-01")].

End Stub.

(* ================================================================= *)
(** ** Vocabulary of the further properties *)

Definition is_GetMapId (e : Event) : bool :=
  match e with
  | GetMapId _ _ => true
  | GetInfo _ => false
  end.

Definition is_GetInfo (e : Event) : bool :=
  match e with
  | GetInfo _ => true
  | GetMapId _ _ => false
  end.

(** The traces of the months in the order [order], one after the other. *)
Definition traces_in {A} (f : nat -> M A) (order : list nat) : Trace :=
  List.concat (map (fun i => snd (f i)) order).

(** Month [k] is the first month whose task raises, and it raises [e]. *)
Definition first_failure {A} (f : nat -> M A) (k : nat) (e : exn) : Prop :=
  (k < 12)%nat
  /\ (forall i, (i < k)%nat -> exists r, fst (f i) = Ok r)
  /\ fst (f k) = Raise e.

(** The two Amazon views, told apart by a flag. *)
Definition amazon_get (lst : bool) : Env -> Schedule -> datetime -> M Response :=
  if lst then AmazonLSTAPI.get else AmazonNDVIAPI.get.

Definition amazon_process_month (lst : bool)
  : Env -> list Geometry -> datetime -> nat -> M pyval :=
  if lst then AmazonLSTAPI.process_month else AmazonNDVIAPI.process_month.

(** The two custom-area views, told apart by a flag. *)
Definition custom_post (lst : bool)
  : Env -> Schedule -> datetime -> list (string * pyval) -> M Response :=
  if lst then CustomLSTAPI.post else CustomNDVIAPI.post.

(** The two point views, told apart by a flag. *)
Definition point_post (lst : bool)
  : Env -> list (string * pyval) -> M Response :=
  if lst then PointLSTMonthlyAPI.post else PointNDVIMonthlyAPI.post.

(** The view answers, and the [success] flag of the body agrees with
    the status; an error answer carries a message. *)
Definition answers_consistently (m : M Response) (statuses : list Z) : Prop :=
  exists r,
    fst m = Ok r
    /\ In (status r) statuses
    /\ lookup (data r) "success" = Some (PBool (status r =? 200))
    /\ (status r <> 200 -> exists msg, lookup (data r) "error" = Some (PStr msg)).

Definition custom_process_month (lst : bool)
  : Env -> Geometry -> datetime -> nat -> M pyval :=
  if lst then CustomLSTAPI.process_month else CustomNDVIAPI.process_month.

Definition answer_of (m : M Response) : Response :=
  match fst m with
  | Ok r => r
  | Raise _ => error_response "" 0
  end.

(** A service whose map requests run out of memory. *)
Definition map_down : Env :=
  {| float_of_str := Stub.read_int;
     geometry_error := Stub.check_geometry;
     image_error := fun _ => None;
     getInfo_reply := Stub.no_data_reply;
     getMapId_reply := fun _ _ =>
       Raise (Exn EEException "User memory limit exceeded.") |}.





(** The request has no latitude/longitude pair. *)
Definition no_latlon_pair (request_data : list (string * pyval)) : Prop :=
  is_not_None (dict_get request_data "latitude")
  && is_not_None (dict_get request_data "longitude") = false.

(** What is wrong with a geometry object, in the words of the point
    views. *)
Inductive geometry_fault : pyval -> string -> Prop :=
| not_a_feature geometry :
    is_not_None geometry = true ->
    (is_dict geometry = false
     \/ exists d, geometry = PDict d /\ assoc "geometry" d = None) ->
    geometry_fault geometry "Invalid geometry object format"
| not_a_point d g :
    assoc "geometry" d = Some (PDict g) ->
    (eq_str (dict_get g "type") "Point" = false
     \/ assoc "coordinates" g = None) ->
    geometry_fault (PDict d) "Invalid geometry format - expected Point"
| too_few_coordinates d g coords :
    assoc "geometry" d = Some (PDict g) ->
    dict_get g "type" = PStr "Point" ->
    assoc "coordinates" g = Some (PList coords) ->
    (List.length coords < 2)%nat ->
    geometry_fault (PDict d) "Invalid coordinates format".


(** [None], a bool or a number. *)
Definition scalar (v : pyval) : bool :=
  match v with
  | PNone | PBool _ | PNum _ => true
  | _ => false
  end.













(** The first day of a month at midnight, which is what [strptime]
    yields for ['%Y-%m']. *)
Definition first_of_month (y m : Z) : datetime :=
  {| year := y; month := m; day := 1; hour := 0; minute := 0; second := 0;
     microsecond := 0 |}.

(** The label of month [m] of year [y] is read back as that month. *)
Definition label_reads_back (y m : Z) : bool :=
  match resolve_month (PStr (decimal y ++ "-" ++ pad2 m)) with
  | Ok (Accepted dt) =>
      (year dt =? y) && (month dt =? m) && (day dt =? 1) && (hour dt =? 0)
      && (minute dt =? 0) && (second dt =? 0) && (microsecond dt =? 0)
  | _ => false
  end.

(** The same, with the year given by its four decimal digits. *)
Definition digit_label (a b c d m : Z) : bool :=
  label_reads_back (1000 * a + 100 * b + 10 * c + d) m.

(** The [n] integers from [lo] on. *)
Definition range (lo : Z) (n : nat) : list Z :=
  map (fun k => lo + Z.of_nat k) (seq 0 n).

Definition forall5b (P : Z -> Z -> Z -> Z -> Z -> bool)
  (la lb lc ld le : list Z) : bool :=
  forallb (fun a => forallb (fun b => forallb (fun c => forallb (fun d =>
    forallb (fun e => P a b c d e) le) ld) lc) lb) la.

(* ================================================================= *)
(** * Properties *)

(** ** The tiling grid *)

Section GridFacts.

Variables lon_step lat_step : Q.




End GridFacts.




Lemma amazon_grid_terminates :
  create_grid_tiles (-74) (-34) (-18) 12 5 = Some grid_tiles.
Proof. reflexivity. Qed.

Lemma amazon_grid_size : List.length grid_tiles = 48%nat.
Proof. reflexivity. Qed.

(** ** The worker pool *)

Section PoolFacts.

Context {A : Type}.

Lemma nth_error_firstn_some (w k : nat) (l : list A) (x : A) :
  nth_error (firstn w l) k = Some x -> nth_error l k = Some x.
Proof.
  revert k l. induction w as [|w IH]; intros k l H.
  - destruct k; discriminate.
  - destruct l as [|y l]; [destruct k; discriminate|].
    destruct k; [exact H|]. cbn in *. now apply IH.
Qed.

Lemma remove_nth_split (k : nat) (l : list A) (x : A) :
  nth_error l k = Some x ->
  forall y, In y l <-> y = x \/ In y (remove_nth k l).
Proof.
  revert l. induction k as [|k IH]; intros [|z l] H y; try discriminate.
  - cbn in H. injection H as ->. cbn. intuition congruence.
  - cbn in H. cbn. rewrite (IH l H y). intuition.
Qed.

Lemma remove_nth_length (k : nat) (l : list A) (x : A) :
  nth_error l k = Some x ->
  List.length l = S (List.length (remove_nth k l)).
Proof.
  revert l. induction k as [|k IH]; intros [|z l] H; try discriminate.
  - reflexivity.
  - cbn in *. f_equal. now apply IH.
Qed.

End PoolFacts.

Lemma remove_nth_NoDup {A B : Type} (f : A -> B) (k : nat) (l : list A) (x : A) :
  nth_error l k = Some x ->
  NoDup (map f l) ->
  NoDup (map f (remove_nth k l)) /\ ~ In (f x) (map f (remove_nth k l)).
Proof.
  revert l. induction k as [|k IH]; intros [|z l] H Hnd; try discriminate.
  - cbn in H. injection H as ->. cbn in *. inversion Hnd; subst. now split.
  - cbn in H. cbn in *. inversion Hnd as [|? ? Hz Hl]; subst.
    destruct (IH l H Hl) as [Hnd' Hx]. split.
    + constructor; [|exact Hnd'].
      intros Hin. apply Hz. apply in_map_iff in Hin as (u & Hu & Hin).
      apply in_map_iff. exists u. split; [exact Hu|].
      apply (remove_nth_split k l x H u). now right.
    + intros [Heq|Hin]; [|now apply Hx].
      apply Hz. rewrite Heq. apply in_map. now apply nth_error_In with k.
Qed.

(** Whatever the schedule, the future stored for a submitted task holds
    the outcome of that task. *)
Lemma run_pool_future {A : Type} (fuel : nat) :
  forall (w : nat) (picks : list nat) (queue : list (nat * M A)),
    (0 < w)%nat -> (List.length queue <= fuel)%nat ->
    NoDup (map fst queue) ->
    forall i task, In (i, task) queue ->
      future_of i (fst (run_pool fuel w picks queue)) = fst task.
Proof.
  induction fuel as [|fuel IH]; intros w picks queue Hw Hlen Hnd i task Hin.
  - destruct queue; [destruct Hin | cbn in Hlen; lia].
  - cbn [run_pool].
    assert (Hpos : (0 < List.length (firstn w queue))%nat).
    { destruct queue as [|q queue]; [destruct Hin|].
      destruct w; [lia|]. cbn. lia. }
    set (in_flight := firstn w queue) in *.
    set (k := (hd 0%nat picks mod List.length in_flight)%nat).
    assert (Hk : (k < List.length in_flight)%nat)
      by (apply Nat.mod_upper_bound; lia).
    destruct (nth_error in_flight k) as [[j t]|] eqn:Hnth.
    2:{ apply nth_error_None in Hnth. lia. }
    apply nth_error_firstn_some in Hnth.
    destruct (run_pool fuel w (tl picks) (remove_nth k queue))
      as [futures trace] eqn:Hrun.
    cbn [fst future_of].
    destruct (remove_nth_NoDup fst k queue (j, t) Hnth Hnd) as [Hnd' Hfresh].
    destruct (proj1 (remove_nth_split k queue (j, t) Hnth (i, task)) Hin)
      as [Heq|Hin'].
    + injection Heq as -> ->. now rewrite Nat.eqb_refl.
    + destruct (Nat.eqb_spec i j) as [->|Hne].
      * exfalso. apply Hfresh. cbn. apply in_map_iff. now exists (j, task).
      * replace futures with (fst (run_pool fuel w (tl picks) (remove_nth k queue)))
          by now rewrite Hrun.
        apply IH; try assumption.
        pose proof (remove_nth_length k queue (j, t) Hnth). lia.
Qed.

(** ** The monad *)

Lemma fst_bind {A B} (m : M A) (k : A -> M B) :
  fst (bind m k) = rbind (fst m) (fun a => fst (k a)).
Proof.
  destruct m as [[a|e] t]; cbn; [destruct (k a); reflexivity | reflexivity].
Qed.

Lemma fst_try_except {A} (m : M A) (h : exn -> M A) :
  fst (try_except m h)
  = match fst m with Ok a => Ok a | Raise e => fst (h e) end.
Proof.
  destruct m as [[a|e] t]; cbn; [reflexivity | destruct (h e); reflexivity].
Qed.

Lemma snd_bind {A B} (m : M A) (k : A -> M B) :
  snd (bind m k)
  = (snd m ++ match fst m with Ok a => snd (k a) | Raise _ => [] end)%list.
Proof.
  destruct m as [[a|e] t]; cbn;
    [destruct (k a); reflexivity | now rewrite app_nil_r].
Qed.

Lemma snd_try_except {A} (m : M A) (h : exn -> M A) :
  snd (try_except m h)
  = (snd m ++ match fst m with Ok _ => [] | Raise e => snd (h e) end)%list.
Proof.
  destruct m as [[a|e] t]; cbn;
    [now rewrite app_nil_r | destruct (h e); reflexivity].
Qed.

Lemma rbind_ext {A B} (r : result A) (k k' : A -> result B) :
  (forall a, k a = k' a) -> rbind r k = rbind r k'.
Proof. intros H. destruct r; cbn; [apply H | reflexivity]. Qed.

(** ** Sequential execution *)

Lemma for_append_in_order {A} (f : nat -> M A) (indices : list nat) :
  forall acc,
    for_append f indices acc
    = bind (in_order f indices) (fun rs => ret (acc ++ rs)%list).
Proof.
  induction indices as [|i rest IH]; intros acc.
  - cbn. now rewrite app_nil_r.
  - cbn [for_append in_order].
    destruct (f i) as [[r|e] t]; cbn [bind]; [|reflexivity].
    rewrite IH.
    destruct (in_order f rest) as [[rs|e] t']; cbn.
    + now rewrite !app_nil_r, <- app_assoc.
    + reflexivity.
Qed.

Lemma for_append_nil {A} (f : nat -> M A) (indices : list nat) :
  for_append f indices [] = in_order f indices.
Proof.
  rewrite for_append_in_order.
  destruct (in_order f indices) as [[rs|e] t]; cbn;
    [now rewrite app_nil_r | reflexivity].
Qed.

(** Results of a sequential run sit at the position of their index. *)
Lemma in_order_positions {A} (f : nat -> M A) (indices : list nat) :
  forall rs,
    fst (in_order f indices) = Ok rs ->
    List.length rs = List.length indices
    /\ forall k i, nth_error indices k = Some i ->
         exists r, fst (f i) = Ok r /\ nth_error rs k = Some r.
Proof.
  induction indices as [|i rest IH]; intros rs H.
  - cbn in H. injection H as <-. split; [reflexivity|].
    intros [|k] j Hk; discriminate.
  - cbn [in_order] in H. rewrite fst_bind in H.
    destruct (fst (f i)) as [r|e] eqn:Hfi; [|discriminate].
    cbn [rbind] in H. rewrite fst_bind in H.
    destruct (fst (in_order f rest)) as [rs'|e] eqn:Hrest; [|discriminate].
    cbn in H. injection H as <-.
    destruct (IH rs' eq_refl) as [Hlen Hpos]. split; [cbn; now rewrite Hlen|].
    intros [|k] j Hk; cbn in Hk.
    + injection Hk as <-. now exists r.
    + now apply Hpos.
Qed.

(** ** Collecting the futures *)

Lemma results_in_order_spec {A} (f : nat -> M A) (futures : list (nat * result A))
  (indices : list nat) :
  (forall i, In i indices -> future_of i futures = fst (f i)) ->
  results_in_order indices futures = fst (in_order f indices).
Proof.
  induction indices as [|i rest IH]; intros H; [reflexivity|].
  cbn [results_in_order in_order]. rewrite fst_bind, (H i) by now left.
  apply rbind_ext. intros r. rewrite fst_bind, IH.
  - reflexivity.
  - intros j Hj. apply H. now right.
Qed.

Lemma in_combine_seq {A} (l : list A) (start i : nat) (x : A) :
  nth_error l i = Some x -> In ((start + i)%nat, x) (combine (seq start (List.length l)) l).
Proof.
  revert start i. induction l as [|y l IH]; intros start [|i] H; try discriminate.
  - cbn in H. injection H as ->. rewrite Nat.add_0_r. now left.
  - cbn in H. right. replace (start + S i)%nat with (S start + i)%nat by lia.
    now apply IH.
Qed.

Lemma map_fst_combine_seq {A} (l : list A) (start : nat) :
  map fst (combine (seq start (List.length l)) l) = seq start (List.length l).
Proof.
  revert start. induction l as [|y l IH]; intros start; [reflexivity|].
  cbn. f_equal. apply IH.
Qed.

(** When submitting does not fail, the pool hands back what a
    sequential run would, whatever the schedule. *)
Lemma pool_results {A} (w : nat) (sched : Schedule) (f : nat -> M A)
  (indices : nat) :
  (0 < w)%nat -> submit_fails sched indices = false ->
  fst (ThreadPoolExecutor_run w sched (map f (seq 0 indices)))
  = fst (in_order f (seq 0 indices)).
Proof.
  intros Hw Hsub. unfold ThreadPoolExecutor_run.
  destruct (Nat.eqb_spec w 0) as [->|_]; [lia|].
  rewrite length_map, length_seq, Hsub.
  set (queue := combine (seq 0 indices) (map f (seq 0 indices))).
  destruct (run_pool (List.length queue) w (picks sched) queue)
    as [futures trace] eqn:Hrun.
  cbn [fst]. apply results_in_order_spec. intros i Hi.
  replace futures with (fst (run_pool (List.length queue) w (picks sched) queue))
    by now rewrite Hrun.
  apply in_seq in Hi.
  apply run_pool_future; [exact Hw | lia | |].
  - subst queue.
    replace (seq 0 indices) with (seq 0 (List.length (map f (seq 0 indices)))) at 1
      by now rewrite length_map, length_seq.
    rewrite map_fst_combine_seq. apply seq_NoDup.
  - subst queue.
    replace (seq 0 indices) with (seq 0 (List.length (map f (seq 0 indices)))) at 1
      by now rewrite length_map, length_seq.
    apply (in_combine_seq (map f (seq 0 indices)) 0 i (f i)).
    rewrite nth_error_map, nth_error_seq.
    destruct (Nat.ltb_spec i indices); [reflexivity | lia].
Qed.

(** The fan-out answers like a sequential run over the twelve months,
    for every schedule and every positive worker cap. *)
Lemma fst_fan_out {A} (w : nat) (sched : Schedule) (f : nat -> M A) :
  fst (fan_out w sched f) = fst (in_order f months).
Proof.
  unfold fan_out. rewrite fst_try_except, for_append_nil.
  change (seq 0 12) with months.
  destruct (fst (ThreadPoolExecutor_run w sched (map f months)))
    as [rs|e] eqn:Hpool; [|reflexivity].
  destruct (Nat.eqb_spec w 0) as [->|Hw].
  - discriminate.
  - destruct (submit_fails sched 12) eqn:Hsub.
    + unfold ThreadPoolExecutor_run in Hpool.
      destruct (Nat.eqb_spec w 0); [contradiction|].
      rewrite length_map in Hpool. change (List.length months) with 12%nat in Hpool.
      rewrite Hsub in Hpool.
      destruct (run_pool _ _ _ _); discriminate.
    + rewrite <- Hpool.
      apply (pool_results w sched f 12); [lia | exact Hsub].
Qed.

(** Claim C6. In each of the four views that fan out the twelve monthly
    tasks the worker cap is the constant 3 or 4; whatever the schedule,
    a fan-out that succeeds returns twelve results, the one of month
    [i] at position [i]; and when the pool fails outright (a submit
    raises), the months are computed strictly one after the other in
    ascending order, the fan-out yielding the outcome of that
    sequential run and its remote calls after those of the pool. *)
Theorem fan_out_capped_ordered_sequential_fallback
  {A : Type} (w : nat) (sched : Schedule) (f : nat -> M A) :
  In w [AmazonNDVIAPI.max_workers; AmazonLSTAPI.max_workers;
        CustomNDVIAPI.max_workers; CustomLSTAPI.max_workers] ->
  (w = 3 \/ w = 4)%nat
  /\ (forall rs, fst (fan_out w sched f) = Ok rs ->
        List.length rs = 12%nat
        /\ forall i, (i < 12)%nat ->
             exists r, fst (f i) = Ok r /\ nth_error rs i = Some r)
  /\ (submit_fails sched 12 = true ->
        exists pool_trace,
          fan_out w sched f
          = (fst (in_order f months),
             (pool_trace ++ snd (in_order f months))%list)).
Proof.
  intros Hw.
  assert (Hcap : (w = 3 \/ w = 4)%nat).
  { cbn in Hw. unfold AmazonNDVIAPI.max_workers, AmazonLSTAPI.max_workers,
      CustomNDVIAPI.max_workers, CustomLSTAPI.max_workers in Hw.
    intuition. }
  split; [exact Hcap|]. split.
  - intros rs Hrs. rewrite fst_fan_out in Hrs.
    destruct (in_order_positions f months rs Hrs) as [Hlen Hpos].
    split; [exact Hlen|]. intros i Hi. apply Hpos.
    unfold months. change [0; 1; 2; 3; 4; 5; 6; 7; 8; 9; 10; 11]%nat with (seq 0 12).
    rewrite nth_error_seq. destruct (Nat.ltb_spec i 12); [reflexivity | lia].
  - intros Hfail. unfold fan_out, ThreadPoolExecutor_run.
    destruct (Nat.eqb_spec w 0) as [->|_]; [destruct Hcap; discriminate|].
    rewrite length_map, length_seq, Hfail.
    destruct (run_pool _ _ _ _) as [futures trace].
    exists trace. cbn [try_except]. rewrite for_append_nil.
    change (seq 0 12) with months.
    destruct (in_order f months); reflexivity.
Qed.

(** ** Independence from the schedule *)

Lemma AmazonNDVI_get_schedule_free (env : Env) (now : datetime) (s1 s2 : Schedule) :
  fst (AmazonNDVIAPI.get env s1 now) = fst (AmazonNDVIAPI.get env s2 now).
Proof.
  unfold AmazonNDVIAPI.get. rewrite !fst_try_except, !fst_bind.
  erewrite rbind_ext; [reflexivity|].
  intros start_date. cbn beta. now rewrite !fst_bind, !fst_fan_out.
Qed.

Lemma AmazonLST_get_schedule_free (env : Env) (now : datetime) (s1 s2 : Schedule) :
  fst (AmazonLSTAPI.get env s1 now) = fst (AmazonLSTAPI.get env s2 now).
Proof.
  unfold AmazonLSTAPI.get. rewrite !fst_try_except, !fst_bind.
  erewrite rbind_ext; [reflexivity|].
  intros start_date. cbn beta. now rewrite !fst_bind, !fst_fan_out.
Qed.

Lemma CustomNDVI_post_schedule_free (env : Env) (now : datetime)
  (request_data : list (string * pyval)) (s1 s2 : Schedule) :
  fst (CustomNDVIAPI.post env s1 now request_data)
  = fst (CustomNDVIAPI.post env s2 now request_data).
Proof.
  unfold CustomNDVIAPI.post. rewrite !fst_try_except. cbn zeta.
  destruct (negb (truthy (dict_get request_data "geometry"))); [reflexivity|].
  rewrite !fst_bind.
  erewrite rbind_ext; [reflexivity|]. intros [|]; [reflexivity|].
  rewrite !fst_bind.
  erewrite rbind_ext; [reflexivity|]. intros coordinates. cbn beta.
  rewrite !fst_bind.
  erewrite rbind_ext; [reflexivity|]. intros aoi. cbn beta.
  rewrite !fst_bind.
  erewrite rbind_ext; [reflexivity|]. intros start_date. cbn beta.
  now rewrite !fst_bind, !fst_fan_out.
Qed.

Lemma CustomLST_post_schedule_free (env : Env) (now : datetime)
  (request_data : list (string * pyval)) (s1 s2 : Schedule) :
  fst (CustomLSTAPI.post env s1 now request_data)
  = fst (CustomLSTAPI.post env s2 now request_data).
Proof.
  unfold CustomLSTAPI.post. rewrite !fst_try_except. cbn zeta.
  destruct (negb (truthy (dict_get request_data "geometry"))); [reflexivity|].
  rewrite !fst_bind.
  erewrite rbind_ext; [reflexivity|]. intros [|]; [reflexivity|].
  rewrite !fst_bind.
  erewrite rbind_ext; [reflexivity|]. intros coordinates. cbn beta.
  rewrite !fst_bind.
  erewrite rbind_ext; [reflexivity|]. intros aoi. cbn beta.
  rewrite !fst_bind.
  erewrite rbind_ext; [reflexivity|]. intros start_date. cbn beta.
  now rewrite !fst_bind, !fst_fan_out.
Qed.

(** A view answers every request: its outermost handler turns any
    exception into a response. *)
Lemma handled_is_Ok {A} (m : M A) (h : exn -> A) :
  exists a, fst (try_except m (fun e => ret (h e))) = Ok a.
Proof.
  rewrite fst_try_except. destruct (fst m) as [a|e]; [now exists a|].
  now exists (h e).
Qed.

Lemma same_response_same_order_and_shape (a b : M Response) (h : exn -> Response)
  (ma mb : M Response) :
  a = try_except ma (fun e => ret (h e)) ->
  b = try_except mb (fun e => ret (h e)) ->
  fst a = fst b -> same_order_and_shape a b.
Proof.
  intros -> -> Heq.
  destruct (handled_is_Ok ma h) as [r Hr].
  exists r, r. rewrite <- Heq. now repeat split.
Qed.

(** Claim C7. Two invocations of a 12-month view on the same inputs, at
    the same anchor time and against the same deterministic service
    answer with the same order of monthly entries and the same JSON
    shape, however the worker pool schedules the tasks and whether or
    not it fails. *)
Theorem invocations_agree_on_order_and_shape
  (env : Env) (now : datetime) (request_data : list (string * pyval))
  (s1 s2 : Schedule) :
  same_order_and_shape (AmazonNDVIAPI.get env s1 now)
                       (AmazonNDVIAPI.get env s2 now)
  /\ same_order_and_shape (AmazonLSTAPI.get env s1 now)
                          (AmazonLSTAPI.get env s2 now)
  /\ same_order_and_shape (CustomNDVIAPI.post env s1 now request_data)
                          (CustomNDVIAPI.post env s2 now request_data)
  /\ same_order_and_shape (CustomLSTAPI.post env s1 now request_data)
                          (CustomLSTAPI.post env s2 now request_data).
Proof.
  repeat split.
  - eapply same_response_same_order_and_shape;
      [reflexivity | reflexivity | apply AmazonNDVI_get_schedule_free].
  - eapply same_response_same_order_and_shape;
      [reflexivity | reflexivity | apply AmazonLST_get_schedule_free].
  - eapply same_response_same_order_and_shape;
      [reflexivity | reflexivity | apply CustomNDVI_post_schedule_free].
  - eapply same_response_same_order_and_shape;
      [reflexivity | reflexivity | apply CustomLST_post_schedule_free].
Qed.

(** ** The tile loop and the assembled image *)


Lemma tile_loop_length (env : Env) (process_tile : Geometry -> M Image)
  (empty_tile : Geometry -> Image) (tiles : list Geometry) :
  forall acc images,
    fst (tile_loop env process_tile empty_tile tiles acc) = Ok images ->
    List.length images = (List.length acc + List.length tiles)%nat.
Proof.
  induction tiles as [|tile rest IH]; intros acc images H.
  - cbn in H. injection H as <-. cbn. lia.
  - cbn [tile_loop] in H. rewrite fst_bind in H.
    destruct (fst (try_except (process_tile tile)
                     (fun _ => build_image env (empty_tile tile))))
      as [img|e]; [|discriminate].
    cbn [rbind] in H. apply IH in H. rewrite length_app in H. cbn in *. lia.
Qed.

Lemma build_image_ok (env : Env) (i : Image) :
  image_error env i = None -> build_image env i = (Ok i, []).
Proof. intros H. unfold build_image. now rewrite H. Qed.


Lemma build_image_inv (env : Env) (i j : Image) (t : Trace) :
  build_image env i = (Ok j, t) -> j = i /\ t = [].
Proof.
  unfold build_image. destruct (image_error env i); cbn; intros H;
    [discriminate | now injection H as <- <-].
Qed.


Lemma assemble_ndvi_inv (env : Env) (tiles : list Geometry)
  (month_start month_end : datetime) (tile_images : list Image)
  (merged : Image) (t : Trace) :
  tiles <> [] ->
  AmazonNDVIAPI.assemble env tiles month_start month_end
  = (Ok (tile_images, merged), t) ->
  List.length tile_images = List.length tiles
  /\ merged = masked_mosaic tile_images AmazonNDVIAPI.aoi.
Proof.
  intros Hne. unfold AmazonNDVIAPI.assemble.
  destruct (tile_loop _ _ _ _ _) as [[images|e] t0] eqn:Hloop; [|discriminate].
  pose proof (tile_loop_length _ _ _ _ _ _ (f_equal fst Hloop)) as Hlen.
  cbn in Hlen. cbn [bind].
  destruct images as [|img images].
  { destruct tiles; [contradiction | discriminate]. }
  unfold build_image.
  destruct (image_error env (clip (mosaic (img :: images)) AmazonNDVIAPI.aoi));
    [discriminate|].
  cbn [ret raise bind].
  destruct (image_error env _); [discriminate|].
  cbn. intros H. injection H as <- <- _. now split.
Qed.

Lemma assemble_lst_inv (env : Env) (tiles : list Geometry)
  (month_start month_end : datetime) (tile_images : list Image)
  (merged : Image) (t : Trace) :
  tiles <> [] ->
  AmazonLSTAPI.assemble env tiles month_start month_end
  = (Ok (tile_images, merged), t) ->
  List.length tile_images = List.length tiles
  /\ merged = masked_mosaic tile_images AmazonLSTAPI.aoi.
Proof.
  intros Hne. unfold AmazonLSTAPI.assemble.
  destruct (tile_loop _ _ _ _ _) as [[images|e] t0] eqn:Hloop; [|discriminate].
  pose proof (tile_loop_length _ _ _ _ _ _ (f_equal fst Hloop)) as Hlen.
  cbn in Hlen. cbn [bind].
  destruct images as [|img images].
  { destruct tiles; [contradiction | discriminate]. }
  unfold build_image.
  destruct (image_error env (clip (mosaic (img :: images)) AmazonLSTAPI.aoi));
    [discriminate|].
  cbn [ret raise bind].
  destruct (image_error env _); [discriminate|].
  cbn. intros H. injection H as <- <- _. now split.
Qed.

(** Masking with [neq(0)] removes exactly the pixels that are zero. *)
Lemma masked_mosaic_value (Pixel : Type) (inside : Geometry -> Pixel -> bool)
  (composite : Collection -> Pixel -> option Q)
  (tile_images : list Image) (aoi : Geometry) (p : Pixel) :
  Pixels.value Pixel inside composite (masked_mosaic tile_images aoi) p
  = match Pixels.value Pixel inside composite (clip (mosaic tile_images) aoi) p with
    | Some v => if Qeq_bool v 0 then None else Some v
    | None => None
    end.
Proof.
  unfold masked_mosaic. cbn zeta.
  change (Pixels.value Pixel inside composite
            (updateMask (clip (mosaic tile_images) aoi)
               (neq (clip (mosaic tile_images) aoi) 0)) p)
    with (match Pixels.value Pixel inside composite (clip (mosaic tile_images) aoi) p,
                Pixels.value Pixel inside composite
                  (neq (clip (mosaic tile_images) aoi) 0) p with
          | Some x, Some k => if Qeq_bool k 0 then None else Some x
          | _, _ => None
          end).
  change (Pixels.value Pixel inside composite
            (neq (clip (mosaic tile_images) aoi) 0) p)
    with (match Pixels.value Pixel inside composite (clip (mosaic tile_images) aoi) p with
          | Some x => Some (if Qeq_bool x 0 then 0 else 1)%Q
          | None => None
          end).
  destruct (Pixels.value Pixel inside composite (clip (mosaic tile_images) aoi) p)
    as [v|]; [|reflexivity].
  destruct (Qeq_bool v 0); reflexivity.
Qed.

(** With a client that builds blank images, the tile loop ends with one
    image per tile, the fetched one or its placeholder. *)
Lemma tile_loop_builds (env : Env) (query blank : Geometry -> Image)
  (tiles : list Geometry) :
  (forall tile, image_error env (blank tile) = None) ->
  forall acc,
    exists images,
      tile_loop env
        (fun tile =>
           try_except (build_image env (query tile))
             (fun _ => build_image env (blank tile)))
        blank tiles acc
      = (Ok (acc ++ images)%list, [])
      /\ List.length images = List.length tiles.
Proof.
  intros Hblank. induction tiles as [|tile rest IH]; intros acc.
  - exists []. cbn. now rewrite app_nil_r.
  - cbn [tile_loop].
    assert (Htile : exists img,
               try_except (build_image env (query tile))
                 (fun _ => build_image env (blank tile)) = (Ok img, [])).
    { unfold build_image at 1.
      destruct (image_error env (query tile)) as [e|].
      - exists (blank tile). cbn. now rewrite (build_image_ok _ _ (Hblank tile)).
      - now exists (query tile). }
    destruct Htile as [img ->]. cbn [try_except bind].
    destruct (IH (acc ++ [img])%list) as (images & -> & Hlen).
    exists (img :: images). split.
    + now rewrite <- app_assoc.
    + cbn. now rewrite Hlen.
Qed.

(** Claim C8. For every month the tile images of the Amazon grid are
    merged into one mosaic clipped to the region, and every pixel of
    that composite whose value is 0 (the value of the placeholder
    tiles) is masked in the final image: with a client that builds
    blank images, mosaics and masks, both Amazon views assemble the
    month from 48 tile images into the masked mosaic; whenever a month
    is assembled at all, its image is that masked mosaic; and the masked
    mosaic is masked wherever the mosaic is 0. *)
Theorem zero_pixels_of_the_mosaic_are_masked
  (env : Env) (month_start month_end : datetime) :
  builds_mosaics env ->
  (exists ndvi_tiles lst_tiles,
     AmazonNDVIAPI.assemble env grid_tiles month_start month_end
     = (Ok (ndvi_tiles, masked_mosaic ndvi_tiles (Polygon amazon_bounds)), [])
     /\ AmazonLSTAPI.assemble env grid_tiles month_start month_end
        = (Ok (lst_tiles, masked_mosaic lst_tiles (Polygon amazon_bounds)), [])
     /\ List.length ndvi_tiles = 48%nat /\ List.length lst_tiles = 48%nat)
  /\ (forall tile_images merged t,
        AmazonNDVIAPI.assemble env grid_tiles month_start month_end
        = (Ok (tile_images, merged), t)
        \/ AmazonLSTAPI.assemble env grid_tiles month_start month_end
           = (Ok (tile_images, merged), t) ->
        merged = masked_mosaic tile_images (Polygon amazon_bounds))
  /\ (forall (Pixel : Type) (inside : Geometry -> Pixel -> bool)
        (composite : Collection -> Pixel -> option Q)
        (tile_images : list Image) (p : Pixel) (v : Q),
        Pixels.value Pixel inside composite
          (clip (mosaic tile_images) (Polygon amazon_bounds)) p = Some v ->
        (v == 0)%Q ->
        Pixels.value Pixel inside composite
          (masked_mosaic tile_images (Polygon amazon_bounds)) p = None).
Proof.
  intros (Hblank & Hmosaic & Hmask).
  assert (Hgrid : grid_tiles <> []) by discriminate.
  split; [|split].
  - destruct (tile_loop_builds env
                (fun tile =>
                   clip (median (AmazonNDVIAPI.s2_tile tile month_start month_end))
                     tile)
                AmazonNDVIAPI.blank grid_tiles (Hblank "NDVI") [])
      as (ndvi_tiles & Hndvi & Hlen1).
    destruct (tile_loop_builds env
                (fun tile =>
                   clip (AmazonLSTAPI.celsius
                           (AmazonLSTAPI.lst_tile tile month_start month_end))
                     tile)
                AmazonLSTAPI.blank grid_tiles (Hblank "LST_Day_1km") [])
      as (lst_tiles & Hlst & Hlen2).
    exists ndvi_tiles, lst_tiles.
    unfold AmazonNDVIAPI.assemble, AmazonLSTAPI.assemble,
      AmazonNDVIAPI.process_tile_month, AmazonLSTAPI.process_tile_month.
    rewrite Hndvi, Hlst. cbn [app bind].
    change (List.length grid_tiles) with 48%nat in Hlen1, Hlen2.
    repeat split; try assumption.
    + destruct ndvi_tiles as [|img images]; [discriminate|].
      rewrite (build_image_ok _ _ (Hmosaic (img :: images) AmazonNDVIAPI.aoi)).
      cbn [bind].
      pose proof (Hmask (img :: images) AmazonNDVIAPI.aoi) as Hk.
      unfold masked_mosaic in Hk. cbn zeta in Hk.
      rewrite (build_image_ok _ _ Hk). reflexivity.
    + destruct lst_tiles as [|img images]; [discriminate|].
      rewrite (build_image_ok _ _ (Hmosaic (img :: images) AmazonLSTAPI.aoi)).
      cbn [bind].
      pose proof (Hmask (img :: images) AmazonLSTAPI.aoi) as Hk.
      unfold masked_mosaic in Hk. cbn zeta in Hk.
      rewrite (build_image_ok _ _ Hk). reflexivity.
  - intros tile_images merged t [H|H].
    + exact (proj2 (assemble_ndvi_inv _ _ _ _ _ _ _ Hgrid H)).
    + exact (proj2 (assemble_lst_inv _ _ _ _ _ _ _ Hgrid H)).
  - intros Pixel inside composite tile_images p v Hv Hzero.
    rewrite masked_mosaic_value, Hv.
    apply Qeq_bool_iff in Hzero. now rewrite Hzero.
Qed.

Lemma zero_pixels_of_the_mosaic_are_masked_witness :
  AmazonNDVIAPI.assemble Stub.tiles_down grid_tiles Stub.june Stub.july
  = (Ok (map AmazonNDVIAPI.blank grid_tiles,
         masked_mosaic (map AmazonNDVIAPI.blank grid_tiles) (Polygon amazon_bounds)),
     [])
  /\ Pixels.value unit (fun _ _ => true) (fun _ _ => None)
       (masked_mosaic (map AmazonNDVIAPI.blank grid_tiles) (Polygon amazon_bounds))
       tt = None.
Proof.
  destruct (zero_pixels_of_the_mosaic_are_masked Stub.tiles_down Stub.june Stub.july)
    as (_ & Hinv & Hzero).
  - repeat split; intros; reflexivity.
  - split.
    + vm_compute. reflexivity.
    + apply (Hzero unit (fun _ _ => true) (fun _ _ => None)
               (map AmazonNDVIAPI.blank grid_tiles) tt 0%Q).
      * vm_compute. reflexivity.
      * reflexivity.
Defined.

(** ** Months in which every tile fetch fails *)






(** ** Request validation *)



Lemma point_ndvi_rejected (env : Env) (request_data : list (string * pyval))
  (r : Response) :
  validate_point_request env request_data = Ok (Rejected r) ->
  PointNDVIMonthlyAPI.post env request_data = (Ok r, []).
Proof. intros H. unfold PointNDVIMonthlyAPI.post. now rewrite H. Qed.

Lemma point_lst_rejected (env : Env) (request_data : list (string * pyval))
  (r : Response) :
  validate_point_request env request_data = Ok (Rejected r) ->
  PointLSTMonthlyAPI.post env request_data = (Ok r, []).
Proof. intros H. unfold PointLSTMonthlyAPI.post. now rewrite H. Qed.






(** ** Answers for months without observations *)

Lemma fst_build_image (env : Env) (i j : Image) :
  fst (build_image env i) = Ok j -> j = i.
Proof.
  unfold build_image. destruct (image_error env i); cbn; [discriminate|].
  now intros [= <-].
Qed.

Lemma fst_build_geometry (env : Env) (g h : Geometry) :
  fst (build_geometry env g) = Ok h -> h = g.
Proof.
  unfold build_geometry. destruct (geometry_error env g); cbn; [discriminate|].
  now intros [= <-].
Qed.

(** One step through a [bind] whose outcome is known to be [Ok]. *)
Ltac bind_ok H x :=
  rewrite fst_bind in H;
  match type of H with
  | rbind ?r _ = Ok _ =>
      let E := fresh "E" x in
      destruct r as [x|] eqn:E; [cbn [rbind] in H | discriminate H]
  end.

Lemma sample_value_no_sample (env : Env) (image : Image) (point : Geometry)
  (scale : Z) (band : string) :
  no_sample env image point scale band ->
  fst (sample_value env image point scale band) = Ok PNone.
Proof.
  unfold no_sample, sample_value. intros H.
  rewrite fst_try_except, fst_bind. cbn [fst getInfo].
  destruct (getInfo_reply env (sample_size image point scale)) as [n|e];
    [|reflexivity].
  cbn [rbind]. rewrite fst_bind. cbn [fst lift].
  destruct (gt0 n) as [[|]|e]; cbn [rbind]; try reflexivity.
  cbn [fst getInfo].
  destruct (getInfo_reply env (sample_first_get image point scale band));
    [now subst | reflexivity].
Qed.

Lemma custom_ndvi_no_data (env : Env) (aoi : Geometry) (start_date : datetime)
  (i : nat) (month_start month_end : datetime) (answer : pyval) (t : Trace) :
  month_bounds start_date (Z.of_nat i) = Ok (month_start, month_end) ->
  no_statistics env
    (clip (median (CustomNDVIAPI.s2_monthly aoi month_start month_end)) aoi)
    aoi 10 "NDVI" ->
  CustomNDVIAPI.process_month env aoi start_date i = (Ok answer, t) ->
  encodes_no_data answer.
Proof.
  intros Hb (d & Hreply & Hmean & Hmin & Hmax) H.
  apply (f_equal fst) in H. cbn [fst] in H.
  unfold CustomNDVIAPI.process_month in H.
  rewrite fst_bind in H. cbn [fst lift] in H. rewrite Hb in H. cbn [rbind] in H.
  bind_ok H image_count. bind_ok H ndvi_image.
  apply fst_build_image in Endvi_image. subst ndvi_image.
  rewrite fst_bind in H. cbn [fst getInfo] in H. rewrite Hreply in H.
  cbn [rbind] in H.
  rewrite fst_bind in H. cbn [fst lift method_get] in H.
  cbn [rbind] in H. rewrite fst_bind in H. cbn [fst lift method_get rbind] in H.
  rewrite fst_bind in H. cbn [fst lift method_get rbind] in H.
  change ("NDVI" ++ "_mean") with "NDVI_mean" in Hmean.
  change ("NDVI" ++ "_min") with "NDVI_min" in Hmin.
  change ("NDVI" ++ "_max") with "NDVI_max" in Hmax.
  rewrite Hmean, Hmin, Hmax in H. cbn in H. injection H as <-.
  split; [reflexivity | left; repeat split].
Qed.

Lemma custom_lst_no_data (env : Env) (aoi : Geometry) (start_date : datetime)
  (i : nat) (month_start month_end : datetime) (answer : pyval) (t : Trace) :
  month_bounds start_date (Z.of_nat i) = Ok (month_start, month_end) ->
  no_statistics env
    (clip (AmazonLSTAPI.celsius
             (CustomLSTAPI.lst_collection aoi month_start month_end)) aoi)
    aoi 1000 "LST_Day_1km" ->
  CustomLSTAPI.process_month env aoi start_date i = (Ok answer, t) ->
  encodes_no_data answer.
Proof.
  intros Hb (d & Hreply & Hmean & Hmin & Hmax) H.
  apply (f_equal fst) in H. cbn [fst] in H.
  unfold CustomLSTAPI.process_month in H.
  rewrite fst_bind in H. cbn [fst lift] in H. rewrite Hb in H. cbn [rbind] in H.
  bind_ok H lst_image.
  apply fst_build_image in Elst_image. subst lst_image.
  rewrite fst_bind in H. cbn [fst getInfo] in H. rewrite Hreply in H.
  cbn [rbind] in H.
  rewrite fst_bind in H. cbn [fst lift method_get] in H.
  cbn [rbind] in H. rewrite fst_bind in H. cbn [fst lift method_get rbind] in H.
  rewrite fst_bind in H. cbn [fst lift method_get rbind] in H.
  change ("LST_Day_1km" ++ "_mean") with "LST_Day_1km_mean" in Hmean.
  change ("LST_Day_1km" ++ "_min") with "LST_Day_1km_min" in Hmin.
  change ("LST_Day_1km" ++ "_max") with "LST_Day_1km_max" in Hmax.
  rewrite Hmean, Hmin, Hmax in H. cbn in H. injection H as <-.
  split; [reflexivity | left; repeat split].
Qed.

Lemma point_ndvi_no_data (env : Env) (request_data : list (string * pyval))
  (lat lon : pyval) (month_date month_end : datetime) (r : Response) (t : Trace) :
  validate_point_request env request_data
  = Ok (Accepted (lat, lon, month_date)) ->
  add month_date (relativedelta_months 1) = Ok month_end ->
  no_sample env
    (median (PointNDVIMonthlyAPI.s2_monthly (Point (PList [lon; lat]))
               month_date month_end))
    (Point (PList [lon; lat])) 10 "NDVI" ->
  PointNDVIMonthlyAPI.post env request_data = (Ok r, t) ->
  status r = 200 ->
  encodes_no_data (data r).
Proof.
  intros Hval Hadd Hno H Hstatus.
  apply (f_equal fst) in H. cbn [fst] in H.
  unfold PointNDVIMonthlyAPI.post in H. rewrite fst_try_except in H.
  match type of H with
  | match ?body with _ => _ end = _ => destruct body as [resp|e] eqn:Hbody
  end.
  2:{ cbn in H. injection H as <-. discriminate Hstatus. }
  injection H as ->. rename Hbody into H.
  rewrite fst_bind in H. cbn [fst lift] in H. rewrite Hval in H.
  cbn [rbind] in H.
  bind_ok H point. apply fst_build_geometry in Epoint. subst point.
  rewrite fst_bind in H. cbn [fst lift] in H. rewrite Hadd in H.
  cbn [rbind] in H.
  bind_ok H image_count. bind_ok H ndvi_image.
  apply fst_build_image in Endvi_image. subst ndvi_image.
  rewrite fst_bind, (sample_value_no_sample _ _ _ _ _ Hno) in H.
  cbn [rbind] in H.
  bind_ok H ndvi_values.
  rewrite fst_bind in H. cbn in H. injection H as <-.
  split; [reflexivity | right; left; reflexivity].
Qed.

Lemma point_lst_no_data (env : Env) (request_data : list (string * pyval))
  (lat lon : pyval) (month_date month_end : datetime) (r : Response) (t : Trace) :
  validate_point_request env request_data
  = Ok (Accepted (lat, lon, month_date)) ->
  add month_date (relativedelta_months 1) = Ok month_end ->
  no_sample env
    (AmazonLSTAPI.celsius
       (PointLSTMonthlyAPI.lst_collection (Point (PList [lon; lat]))
          month_date month_end))
    (Point (PList [lon; lat])) 1000 "LST_Day_1km" ->
  PointLSTMonthlyAPI.post env request_data = (Ok r, t) ->
  status r = 200 ->
  encodes_no_data (data r).
Proof.
  intros Hval Hadd Hno H Hstatus.
  apply (f_equal fst) in H. cbn [fst] in H.
  unfold PointLSTMonthlyAPI.post in H. rewrite fst_try_except in H.
  match type of H with
  | match ?body with _ => _ end = _ => destruct body as [resp|e] eqn:Hbody
  end.
  2:{ cbn in H. injection H as <-. discriminate Hstatus. }
  injection H as ->. rename Hbody into H.
  rewrite fst_bind in H. cbn [fst lift] in H. rewrite Hval in H.
  cbn [rbind] in H.
  bind_ok H point. apply fst_build_geometry in Epoint. subst point.
  rewrite fst_bind in H. cbn [fst lift] in H. rewrite Hadd in H.
  cbn [rbind] in H.
  bind_ok H lst_image.
  apply fst_build_image in Elst_image. subst lst_image.
  rewrite fst_bind, (sample_value_no_sample _ _ _ _ _ Hno) in H.
  cbn [rbind] in H.
  bind_ok H lst_values.
  rewrite fst_bind in H. cbn in H. injection H as <-.
  split; [reflexivity | right; right; reflexivity].
Qed.

(** Claim C5. In the four views that return numbers, a month for which
    the service has no observation is reported with an explicit null
    for every value and with [data_available = False]; the number zero
    is not used for it. *)
Theorem no_observation_is_null_and_flagged (env : Env) (answer : pyval) :
  no_observation_answer env answer -> encodes_no_data answer.
Proof.
  intros [aoi start_date i ms me t Hb Hno H
         | aoi start_date i ms me t Hb Hno H
         | request_data lat lon md me r t Hval Hadd Hno H Hstatus ->
         | request_data lat lon md me r t Hval Hadd Hno H Hstatus ->].
  - exact (custom_ndvi_no_data _ _ _ _ _ _ _ _ Hb Hno H).
  - exact (custom_lst_no_data _ _ _ _ _ _ _ _ Hb Hno H).
  - exact (point_ndvi_no_data _ _ _ _ _ _ _ _ Hval Hadd Hno H Hstatus).
  - exact (point_lst_no_data _ _ _ _ _ _ _ _ Hval Hadd Hno H Hstatus).
Qed.

Lemma no_observation_is_null_and_flagged_witness :
  encodes_no_data
    (data {| data :=
               PDict [("success", PBool true);
                      ("location",
                       PDict [("latitude", PNum (-3)); ("longitude", PNum (-60))]);
                      ("month", PStr "2024-01");
                      ("month_name", PStr "January 2024");
                      ("data_type", PStr "NDVI");
                      ("median_ndvi", PNone);
                      ("all_ndvi_values", PList []);
                      ("image_count", PNum 0);
                      ("data_available", PBool false)];
             status := 200 |}).
Proof.
  apply (no_observation_is_null_and_flagged Stub.quiet).
  eapply (point_ndvi_month Stub.quiet _ (Stub.latlon_request PNone)).
  - vm_compute. reflexivity.
  - vm_compute. reflexivity.
  - vm_compute. exact I.
  - vm_compute. reflexivity.
  - reflexivity.
  - reflexivity.
Defined.

(** An observed zero, in contrast, is reported as the number 0 with
    [data_available = True]. *)
Lemma observed_zero_is_a_number :
  statistics (PNum 0) (PNum 0) (PNum 0) 4
  = Ok (PDict [("mean", PNum 0); ("min", PNum 0); ("max", PNum 0)])
  /\ is_not_None (PNum 0) = true.
Proof. split; reflexivity. Qed.

Lemma fan_out_capped_ordered_sequential_fallback_witness :
  (3 = 3 \/ 3 = 4)%nat
  /\ (forall rs,
        fst (fan_out 3 Stub.broken_pool
               (AmazonNDVIAPI.process_month Stub.quiet grid_tiles Stub.june))
        = Ok rs ->
        List.length rs = 12%nat
        /\ forall i, (i < 12)%nat ->
             exists r,
               fst (AmazonNDVIAPI.process_month Stub.quiet grid_tiles Stub.june i)
               = Ok r
               /\ nth_error rs i = Some r)
  /\ exists pool_trace,
       fan_out 3 Stub.broken_pool
         (AmazonNDVIAPI.process_month Stub.quiet grid_tiles Stub.june)
       = (fst (in_order
                 (AmazonNDVIAPI.process_month Stub.quiet grid_tiles Stub.june)
                 months),
          (pool_trace
           ++ snd (in_order
                     (AmazonNDVIAPI.process_month Stub.quiet grid_tiles Stub.june)
                     months))%list).
Proof.
  destruct (fan_out_capped_ordered_sequential_fallback 3 Stub.broken_pool
              (AmazonNDVIAPI.process_month Stub.quiet grid_tiles Stub.june))
    as (Hcap & Hordered & Hfallback).
  - simpl. left. reflexivity.
  - split; [exact Hcap|]. split; [exact Hordered|].
    apply Hfallback. reflexivity.
Defined.

(** ** The constants *)



(** ** Points given twice *)





(** Without the pair the same geometry entry decides the answer: it is
    not a Point feature, and reading its [type] raises. *)
Lemma geometry_alone_is_read :
  option_map status
    (match fst (PointNDVIMonthlyAPI.post Stub.quiet
                  [("geometry", PDict [("geometry", PNum 7)]);
                   ("month", PStr "2024-01")]) with
     | Ok r => Some r
     | Raise _ => None
     end) = Some 500.
Proof. vm_compute. reflexivity. Qed.

(** ** The twelve-month window *)

Lemma monthrange_days_bounds (y m : Z) :
  1 <= m <= 12 -> 28 <= monthrange_days y m <= 31.
Proof.
  intros Hm. unfold monthrange_days.
  assert (Hc : m = 1 \/ m = 2 \/ m = 3 \/ m = 4 \/ m = 5 \/ m = 6 \/ m = 7
               \/ m = 8 \/ m = 9 \/ m = 10 \/ m = 11 \/ m = 12) by lia.
  repeat (destruct Hc as [->|Hc]); try subst m; cbn;
    try destruct (isleap y); cbn; lia.
Qed.

(** Adding [k] months moves the month count by [k], keeps the month in
    range and clips the day to the target month. *)
Lemma add_months (dt : datetime) (k : Z) :
  1 <= month dt <= 12 -> 0 <= k <= 12 ->
  MINYEAR * 12 <= month_ordinal dt ->
  month_ordinal dt + k < (MAXYEAR + 1) * 12 ->
  exists dt',
    add dt (relativedelta_months k) = Ok dt'
    /\ month_ordinal dt' = month_ordinal dt + k
    /\ 1 <= month dt' <= 12
    /\ day dt' = Z.min (monthrange_days (year dt') (month dt')) (day dt).
Proof.
  intros Hm Hk Hlo Hhi. unfold month_ordinal, MINYEAR, MAXYEAR in *.
  destruct (Z.eq_dec k 12) as [->|Hk12].
  - change (relativedelta_months 12) with (mk_relativedelta 1 0).
    unfold add. cbn [rd_years rd_months]. change (0 =? 0) with true. cbn iota.
    destruct (Z.leb_spec MINYEAR (year dt + 1));
      destruct (Z.leb_spec (year dt + 1) MAXYEAR);
      unfold MINYEAR, MAXYEAR in *; try lia.
    cbn [andb]. eexists. split; [reflexivity|].
    cbn [year month day]. lia.
  - assert (Hrd : relativedelta_months k = mk_relativedelta 0 k).
    { unfold relativedelta_months.
      destruct (Z.ltb_spec 11 (Z.abs k)); [lia | reflexivity]. }
    rewrite Hrd. unfold add. cbn [rd_years rd_months].
    destruct (Z.eqb_spec k 0) as [->|Hk0].
    + destruct (Z.leb_spec MINYEAR (year dt + 0));
        destruct (Z.leb_spec (year dt + 0) MAXYEAR);
        unfold MINYEAR, MAXYEAR in *; try lia.
      cbn [andb]. eexists. split; [reflexivity|].
      cbn [year month day]. rewrite Z.add_0_r. lia.
    + destruct (Z.ltb_spec 12 (month dt + k)) as [Hover|Hin].
      * destruct (Z.leb_spec MINYEAR (year dt + 0 + 1));
          destruct (Z.leb_spec (year dt + 0 + 1) MAXYEAR);
          unfold MINYEAR, MAXYEAR in *; try lia.
        cbn [andb]. eexists. split; [reflexivity|].
        cbn [year month day]. lia.
      * destruct (Z.ltb_spec (month dt + k) 1); [lia|].
        destruct (Z.leb_spec MINYEAR (year dt + 0));
          destruct (Z.leb_spec (year dt + 0) MAXYEAR);
          unfold MINYEAR, MAXYEAR in *; try lia.
        cbn [andb]. eexists. split; [reflexivity|].
        cbn [year month day]. rewrite Z.add_0_r. lia.
Qed.

Lemma same_month (a b : datetime) :
  1 <= month a <= 12 -> 1 <= month b <= 12 ->
  month_ordinal a = month_ordinal b ->
  year a = year b /\ month a = month b.
Proof. unfold month_ordinal. lia. Qed.

(** Property X1. Whatever the anchor, the interval of a month is not
    empty and ends no later than the next one starts: the twelve
    intervals are in ascending order and do not overlap. When the day
    of the anchor exists in every month, each interval ends where the
    next begins. *)
Lemma month_bounds_ascending (start_date : datetime) (i : nat) :
  valid_date start_date -> year start_date < MAXYEAR -> (i < 11)%nat ->
  exists month_start month_end next_start next_end,
    month_bounds start_date (Z.of_nat i) = Ok (month_start, month_end)
    /\ month_bounds start_date (Z.of_nat (S i)) = Ok (next_start, next_end)
    /\ date_lt month_start month_end
    /\ date_le month_end next_start
    /\ date_lt next_start next_end
    /\ (day start_date <= 28 -> date_key month_end = date_key next_start).
Proof.
  intros (Hy & Hm & Hd) Hmax Hi. unfold month_bounds.
  pose proof (monthrange_days_bounds (year start_date) (month start_date) Hm).
  assert (Hlo : MINYEAR * 12 <= month_ordinal start_date)
    by (unfold month_ordinal, MINYEAR in *; lia).
  assert (Hhi : month_ordinal start_date + 13 <= (MAXYEAR + 1) * 12)
    by (unfold month_ordinal, MAXYEAR in *; lia).
  destruct (add_months start_date (Z.of_nat i) Hm) as (ms & -> & Hms & Hmsm & Hmsd);
    try (unfold MINYEAR, MAXYEAR in *; lia).
  destruct (add_months start_date (Z.of_nat (S i)) Hm) as (ns & -> & Hns & Hnsm & Hnsd);
    try (unfold MINYEAR, MAXYEAR in *; lia).
  cbn [rbind].
  destruct (add_months ms 1 Hmsm) as (me & -> & Hme & Hmem & Hmed); try (unfold MINYEAR, MAXYEAR in *; lia).
  destruct (add_months ns 1 Hnsm) as (ne & -> & Hne & Hnem & Hned); try (unfold MINYEAR, MAXYEAR in *; lia).
  cbn [rbind]. exists ms, me, ns, ne. repeat split.
  - unfold date_lt, date_key. unfold month_ordinal in *.
    pose proof (monthrange_days_bounds (year ms) (month ms) Hmsm).
    pose proof (monthrange_days_bounds (year me) (month me) Hmem).
    lia.
  - unfold date_le, date_key.
    destruct (same_month me ns Hmem Hnsm) as [Hyear Hmonth]; [lia|].
    rewrite Hyear, Hmonth in *. unfold month_ordinal in *.
    pose proof (monthrange_days_bounds (year ns) (month ns) Hnsm).
    lia.
  - unfold date_lt, date_key. unfold month_ordinal in *.
    pose proof (monthrange_days_bounds (year ns) (month ns) Hnsm).
    pose proof (monthrange_days_bounds (year ne) (month ne) Hnem).
    lia.
  - intros Hday. unfold date_key.
    destruct (same_month me ns Hmem Hnsm) as [Hyear Hmonth]; [lia|].
    rewrite Hyear, Hmonth in *. unfold month_ordinal in *.
    pose proof (monthrange_days_bounds (year ms) (month ms) Hmsm).
    pose proof (monthrange_days_bounds (year ns) (month ns) Hnsm).
    lia.
Qed.


(** Claim C3 fails on the code when the anchor day does not exist in
    every month. Anchored at 2024-01-31, the task of month 1 covers
    2023-02-28 up to 2023-03-28 and the task of month 2 starts at
    2023-03-31: the intervals are in ascending order and do not overlap,
    but 28, 29 and 30 March belong to none of them. *)
Theorem month_end_clipping_leaves_gap :
  exists tasks,
    monthly_tasks (Stub.noon 2024 1 31) = Ok tasks
    /\ List.length tasks = 12%nat
    /\ option_map (fun iv => (strftime_Ymd (fst iv), strftime_Ymd (snd iv)))
         (nth_error tasks 1) = Some ("2023-02-28", "2023-03-28")
    /\ option_map (fun iv => (strftime_Ymd (fst iv), strftime_Ymd (snd iv)))
         (nth_error tasks 2) = Some ("2023-03-31", "2023-04-30")
    /\ (forall a b, nth_error tasks 1 = Some a -> nth_error tasks 2 = Some b ->
          date_lt (snd a) (fst b)).
Proof.
  eexists. split; [vm_compute; reflexivity|].
  repeat split.
  intros a b [= <-] [= <-]. vm_compute. reflexivity.
Qed.

(** An anchor on a day that every month has (the 1st to the 28th) does
    give consecutive intervals, for instance 2024-01-15. *)
Lemma mid_month_anchor_is_consecutive :
  match monthly_tasks (Stub.noon 2024 1 15) with
  | Ok tasks =>
      map (fun iv => strftime_Ymd (fst iv)) (tl tasks)
      = map (fun iv => strftime_Ymd (snd iv)) (removelast tasks)
  | Raise _ => False
  end.
Proof. vm_compute. reflexivity. Qed.

(** ** The views at work *)

Lemma amazon_view_answers_200 :
  option_map (fun r => (status r, List.length (month_labels (monthly_entries r))))
    (match fst (AmazonNDVIAPI.get Stub.quiet Stub.shuffled (Stub.noon 2024 1 15)) with
     | Ok r => Some r
     | Raise _ => None
     end) = Some (200, 12%nat).
Proof. vm_compute. reflexivity. Qed.

(** The schedule shows in the order of the remote calls only. *)
Lemma schedule_reorders_remote_calls :
  snd (AmazonLSTAPI.get Stub.quiet Stub.fifo (Stub.noon 2024 1 15))
  <> snd (AmazonLSTAPI.get Stub.quiet Stub.shuffled (Stub.noon 2024 1 15))
  /\ fst (AmazonLSTAPI.get Stub.quiet Stub.fifo (Stub.noon 2024 1 15))
     = fst (AmazonLSTAPI.get Stub.quiet Stub.shuffled (Stub.noon 2024 1 15)).
Proof.
  split; [|apply AmazonLST_get_schedule_free].
  vm_compute. discriminate.
Qed.

Lemma custom_view_reports_statistics :
  option_map (fun r => (status r, nth_error
                          (match monthly_entries r with PList l => l | _ => [] end) 0))
    (match fst (CustomLSTAPI.post Stub.sunny Stub.breaks_midway
                  (Stub.noon 2024 1 15) Stub.polygon_request) with
     | Ok r => Some r
     | Raise _ => None
     end)
  = Some (200,
          Some (PDict [("month", PStr "2023-01");
                       ("month_name", PStr "January 2023");
                       ("data_type", PStr "LST");
                       ("unit", PStr "Celsius");
                       ("statistics",
                        PDict [("mean", PNum (1373 # 50)); ("min", PNum 20);
                               ("max", PNum (71 # 2))]);
                       ("data_available", PBool true)])).
Proof. vm_compute. reflexivity. Qed.

(* ================================================================= *)
(** * Further properties of the views *)


(** ** More on the tiling grid *)

Section GridEdges.

Variables lon_step lat_step : Q.



Lemma lat_loop_never_ends (lon max_lat : Q) (fuel : nat) :
  (lat_step <= 0)%Q ->
  forall lat tiles,
    (lat < max_lat)%Q ->
    lat_loop fuel lon lat max_lat lon_step lat_step tiles = None.
Proof.
  intros Hstep. induction fuel as [|fuel IH]; intros lat tiles Hlat;
    cbn [lat_loop]; destruct (Qlt_le_dec lat max_lat) as [Hlt|Hge];
    try reflexivity; try (exfalso; lra).
  apply IH. lra.
Qed.

Lemma lon_loop_never_ends (max_lon min_lat max_lat : Q) (lat_fuel fuel : nat) :
  (lon_step <= 0)%Q ->
  forall lon tiles,
    (lon < max_lon)%Q ->
    lon_loop fuel lat_fuel lon max_lon min_lat max_lat lon_step lat_step tiles
    = None.
Proof.
  intros Hstep. induction fuel as [|fuel IH]; intros lon tiles Hlon;
    cbn [lon_loop]; destruct (Qlt_le_dec lon max_lon) as [Hlt|Hge];
    try reflexivity; try (exfalso; lra).
  destruct (lat_loop _ _ _ _ _ _ _); [|reflexivity].
  apply IH. lra.
Qed.


End GridEdges.







(** Property X4. With a tile size that is zero or negative the loops over a
    box of positive width never end: no number of iterations is enough,
    and [create_grid_tiles] returns nothing. *)
Theorem non_positive_tile_size_never_ends
  (min_lon max_lon min_lat max_lat tile_size : Q) :
  (tile_size <= 0)%Q -> (min_lon < max_lon)%Q ->
  (forall fuel lat_fuel tiles,
     lon_loop fuel lat_fuel min_lon max_lon min_lat max_lat tile_size tile_size
       tiles = None)
  /\ create_grid_tiles min_lon max_lon min_lat max_lat tile_size = None.
Proof.
  intros Hsize Hlon. split.
  - intros fuel lat_fuel tiles. now apply lon_loop_never_ends.
  - unfold create_grid_tiles. now apply lon_loop_never_ends.
Qed.

Lemma non_positive_tile_size_never_ends_witness :
  (forall fuel lat_fuel tiles,
     lon_loop fuel lat_fuel (-74) (-34) (-18) 12 0 0 tiles = None)
  /\ create_grid_tiles (-74) (-34) (-18) 12 0 = None.
Proof.
  apply (non_positive_tile_size_never_ends (-74) (-34) (-18) 12 0); lra.
Defined.


Section GridOrder.

Variables lon_step lat_step : Q.
Hypothesis lon_step_pos : (0 <= lon_step)%Q.
Hypothesis lat_step_pos : (0 <= lat_step)%Q.



End GridOrder.




(** ** The window, seen from its anchor *)

Lemma window_start_spec (now : datetime) :
  valid_date now -> MINYEAR < year now ->
  exists start_date,
    window_start now = Ok start_date
    /\ month_ordinal start_date = month_ordinal now - 12
    /\ valid_date start_date
    /\ year start_date < MAXYEAR
    /\ day start_date <= day now.
Proof.
  intros (Hy & Hm & Hd) Hmin. unfold window_start, sub.
  change (rd_neg (relativedelta_months 12)) with (mk_relativedelta (-1) 0).
  unfold add. cbn [rd_years rd_months]. change (0 =? 0) with true. cbn iota.
  unfold MINYEAR, MAXYEAR in *.
  destruct (Z.leb_spec 1 (year now + -1)); [|lia].
  destruct (Z.leb_spec (year now + -1) 9999); [|lia].
  cbn [andb]. eexists. split; [reflexivity|].
  pose proof (monthrange_days_bounds (year now + -1) (month now) Hm).
  unfold month_ordinal, valid_date, MINYEAR, MAXYEAR. cbn [year month day].
  repeat split; lia.
Qed.

(** Property X6. For every valid anchor after year 1, task [i] of the window
    starts in the calendar month 12 - i months before the month of the
    anchor and ends in the month after that one; no task reaches back
    before the start date or forward beyond the anchor. The month of
    the anchor itself gets no task of its own. *)
Theorem window_covers_the_twelve_months_before_now (now : datetime) (i : nat) :
  valid_date now -> MINYEAR < year now -> (i < 12)%nat ->
  exists start_date month_start month_end,
    window_start now = Ok start_date
    /\ month_bounds start_date (Z.of_nat i) = Ok (month_start, month_end)
    /\ month_ordinal month_start = month_ordinal now - 12 + Z.of_nat i
    /\ month_ordinal month_end = month_ordinal month_start + 1
    /\ date_le start_date month_start
    /\ date_le month_end now.
Proof.
  intros Hnow Hmin Hi.
  destruct (window_start_spec now Hnow Hmin)
    as (start & Hstart & Hord & (Hsy & Hsm & Hsd) & Hsmax & Hday).
  destruct Hnow as (Hy & Hm & Hd).
  assert (Hlo : MINYEAR * 12 <= month_ordinal start)
    by (unfold month_ordinal, MINYEAR in *; lia).
  assert (Hhi : month_ordinal start + 13 <= (MAXYEAR + 1) * 12)
    by (unfold month_ordinal, MAXYEAR in *; lia).
  unfold month_bounds.
  destruct (add_months start (Z.of_nat i) Hsm) as (ms & Hms & Hmso & Hmsm & Hmsd);
    try (unfold MINYEAR, MAXYEAR in *; lia).
  destruct (add_months ms 1 Hmsm) as (me & Hme & Hmeo & Hmem & Hmed);
    try (unfold MINYEAR, MAXYEAR in *; lia).
  exists start, ms, me. rewrite Hms. cbn [rbind]. rewrite Hme. cbn [rbind].
  pose proof (monthrange_days_bounds (year ms) (month ms) Hmsm).
  pose proof (monthrange_days_bounds (year me) (month me) Hmem).
  pose proof (monthrange_days_bounds (year start) (month start) Hsm).
  pose proof (monthrange_days_bounds (year now) (month now) Hm).
  repeat split; try assumption; try lia.
  - unfold date_le, date_key.
    destruct (Nat.eq_dec i 0) as [->|Hpos].
    + destruct (same_month ms start Hmsm Hsm) as [Hyear Hmonth]; [lia|].
      rewrite Hyear, Hmonth in *. lia.
    + unfold month_ordinal in *. lia.
  - unfold date_le, date_key.
    destruct (Nat.eq_dec i 11) as [->|Hlast].
    + destruct (same_month me now Hmem Hm) as [Hyear Hmonth]; [lia|].
      rewrite Hyear, Hmonth in *. lia.
    + unfold month_ordinal in *. lia.
Qed.

Lemma window_covers_the_twelve_months_before_now_witness :
  exists start_date month_start month_end,
    window_start (Stub.noon 2024 3 31) = Ok start_date
    /\ month_bounds start_date (Z.of_nat 11) = Ok (month_start, month_end)
    /\ month_ordinal month_start
       = month_ordinal (Stub.noon 2024 3 31) - 12 + Z.of_nat 11
    /\ month_ordinal month_end = month_ordinal month_start + 1
    /\ date_le start_date month_start
    /\ date_le month_end (Stub.noon 2024 3 31).
Proof.
  apply (window_covers_the_twelve_months_before_now (Stub.noon 2024 3 31) 11).
  - repeat split; vm_compute; discriminate.
  - reflexivity.
  - lia.
Defined.

Lemma month_bounds_ascending_witness :
  exists month_start month_end next_start next_end,
    month_bounds (Stub.noon 2023 1 31) (Z.of_nat 1) = Ok (month_start, month_end)
    /\ month_bounds (Stub.noon 2023 1 31) (Z.of_nat 2) = Ok (next_start, next_end)
    /\ date_lt month_start month_end
    /\ date_le month_end next_start
    /\ date_lt next_start next_end
    /\ (day (Stub.noon 2023 1 31) <= 28 -> date_key month_end = date_key next_start).
Proof.
  apply (month_bounds_ascending (Stub.noon 2023 1 31) 1).
  - repeat split; vm_compute; discriminate.
  - reflexivity.
  - lia.
Defined.

(** ** What the pool runs, and in which order *)

Lemma remove_nth_perm {A} (k : nat) (l : list A) (x : A) :
  nth_error l k = Some x -> Permutation (x :: remove_nth k l) l.
Proof.
  revert l. induction k as [|k IH]; intros [|y l] H; try discriminate.
  - cbn in H. injection H as ->. reflexivity.
  - cbn in H. cbn. rewrite perm_swap. constructor. now apply IH.
Qed.

(** The pool completes every queued task exactly once: its futures and
    its trace are those of the tasks taken in some order. *)
Lemma run_pool_order {A} (fuel : nat) :
  forall (w : nat) (picks : list nat) (queue : list (nat * M A)),
    (0 < w)%nat -> (List.length queue <= fuel)%nat ->
    exists order,
      Permutation order queue
      /\ fst (run_pool fuel w picks queue)
         = map (fun it => (fst it, fst (snd it))) order
      /\ snd (run_pool fuel w picks queue)
         = List.concat (map (fun it => snd (snd it)) order).
Proof.
  induction fuel as [|fuel IH]; intros w picks queue Hw Hlen.
  - destruct queue; [|cbn in Hlen; lia]. exists []. now repeat split.
  - destruct queue as [|q queue'].
    { exists []. cbn. destruct w; cbn; repeat split; try reflexivity;
        destruct (hd 0%nat picks); reflexivity. }
    remember (q :: queue') as queue eqn:Hq.
    cbn [run_pool].
    assert (Hpos : (0 < List.length (firstn w queue))%nat).
    { subst queue. destruct w; [lia|]. cbn. lia. }
    set (in_flight := firstn w queue) in *.
    set (k := (hd 0%nat picks mod List.length in_flight)%nat).
    assert (Hk : (k < List.length in_flight)%nat)
      by (apply Nat.mod_upper_bound; lia).
    destruct (nth_error in_flight k) as [[j t]|] eqn:Hnth.
    2:{ apply nth_error_None in Hnth. lia. }
    apply nth_error_firstn_some in Hnth.
    pose proof (remove_nth_length k queue (j, t) Hnth) as Hl.
    destruct (IH w (tl picks) (remove_nth k queue) Hw ltac:(lia))
      as (order & Hperm & Hfut & Htrace).
    destruct (run_pool fuel w (tl picks) (remove_nth k queue))
      as [futures trace].
    cbn [fst snd] in *. exists ((j, t) :: order). repeat split.
    + rewrite <- (remove_nth_perm k queue (j, t) Hnth). now constructor.
    + cbn. now rewrite Hfut.
    + cbn. now rewrite Htrace.
Qed.

Lemma combine_seq_map {A} (f : nat -> A) (n start : nat) :
  combine (seq start n) (map f (seq start n))
  = map (fun i => (i, f i)) (seq start n).
Proof.
  revert start. induction n as [|n IH]; intros start; [reflexivity|].
  cbn. now rewrite IH.
Qed.

(** Without a failing submit the pool runs the twelve months, each
    exactly once, in an order the schedule decides. *)
Lemma pool_trace {A} (w : nat) (sched : Schedule) (f : nat -> M A) :
  (0 < w)%nat -> submit_fails sched 12 = false ->
  exists order,
    Permutation order months
    /\ snd (ThreadPoolExecutor_run w sched (map f months)) = traces_in f order.
Proof.
  intros Hw Hsub. unfold ThreadPoolExecutor_run.
  destruct (Nat.eqb_spec w 0) as [->|_]; [lia|].
  rewrite length_map. change (List.length months) with 12%nat.
  rewrite Hsub. cbn iota. rewrite combine_seq_map.
  change (seq 0 12) with months.
  set (queue := map (fun i => (i, f i)) months).
  destruct (run_pool_order (List.length queue) w (picks sched) queue Hw (le_n _))
    as (order & Hperm & _ & Htrace).
  destruct (run_pool (List.length queue) w (picks sched) queue)
    as [futures trace].
  cbn [snd] in *. subst queue.
  apply Permutation_map_inv in Hperm as (order' & -> & Hperm').
  exists order'. split; [now apply Permutation_sym|].
  rewrite Htrace. unfold traces_in. now rewrite map_map.
Qed.




(** ** Which remote calls a view makes *)

Lemma firstn_subset {A} (n : nat) (l : list A) (x : A) :
  In x (firstn n l) -> In x l.
Proof.
  intros H. rewrite <- (firstn_skipn n l). apply in_or_app. now left.
Qed.

Section TraceKinds.

Variable P : Event -> Prop.

Lemma calls_bind {A B} (m : M A) (k : A -> M B) :
  Forall P (snd m) -> (forall a, Forall P (snd (k a))) ->
  Forall P (snd (bind m k)).
Proof.
  intros Hm Hk. rewrite snd_bind. apply Forall_app. split; [exact Hm|].
  destruct (fst m); [apply Hk | constructor].
Qed.

Lemma calls_try_except {A} (m : M A) (h : exn -> M A) :
  Forall P (snd m) -> (forall e, Forall P (snd (h e))) ->
  Forall P (snd (try_except m h)).
Proof.
  intros Hm Hh. rewrite snd_try_except. apply Forall_app. split; [exact Hm|].
  destruct (fst m); [constructor | apply Hh].
Qed.

Lemma calls_build_image (env : Env) (i : Image) :
  Forall P (snd (build_image env i)).
Proof. unfold build_image. destruct (image_error env i); constructor. Qed.

Lemma calls_build_geometry (env : Env) (g : Geometry) :
  Forall P (snd (build_geometry env g)).
Proof. unfold build_geometry. destruct (geometry_error env g); constructor. Qed.

Lemma calls_tile_loop (env : Env) (process_tile : Geometry -> M Image)
  (empty_tile : Geometry -> Image) (tiles : list Geometry) :
  (forall tile, Forall P (snd (process_tile tile))) ->
  forall acc, Forall P (snd (tile_loop env process_tile empty_tile tiles acc)).
Proof.
  intros Htile. induction tiles as [|tile rest IH]; intros acc; [constructor|].
  cbn [tile_loop]. apply calls_bind.
  - apply calls_try_except; [apply Htile | intros; apply calls_build_image].
  - intros img. apply IH.
Qed.

Lemma calls_in_order {A} (f : nat -> M A) (indices : list nat) :
  (forall i, Forall P (snd (f i))) -> Forall P (snd (in_order f indices)).
Proof.
  intros Hf. induction indices as [|i rest IH]; [constructor|].
  cbn [in_order]. apply calls_bind; [apply Hf|].
  intros r. apply calls_bind; [exact IH | intros; constructor].
Qed.

Lemma calls_run_pool {A} (fuel : nat) :
  forall (w : nat) (picks : list nat) (queue : list (nat * M A)),
    (forall it, In it queue -> Forall P (snd (snd it))) ->
    Forall P (snd (run_pool fuel w picks queue)).
Proof.
  induction fuel as [|fuel IH]; intros w picks queue Hq; [constructor|].
  cbn [run_pool].
  destruct (nth_error (firstn w queue) _) as [[j t]|] eqn:Hnth; [|constructor].
  apply nth_error_firstn_some in Hnth.
  specialize (IH w (tl picks) (remove_nth (hd 0%nat picks mod List.length (firstn w queue)) queue)).
  destruct (run_pool fuel w (tl picks) _) as [futures trace].
  cbn [snd] in *. apply Forall_app. split.
  - apply (Hq (j, t)). now apply nth_error_In in Hnth.
  - apply IH. intros it Hit. apply Hq.
    apply (remove_nth_split _ queue (j, t) Hnth it). now right.
Qed.

Lemma calls_fan_out {A} (w : nat) (sched : Schedule) (f : nat -> M A) :
  (forall i, Forall P (snd (f i))) -> Forall P (snd (fan_out w sched f)).
Proof.
  intros Hf. unfold fan_out. apply calls_try_except.
  - unfold ThreadPoolExecutor_run.
    destruct (w =? 0)%nat; [constructor|].
    match goal with
    | |- context [run_pool ?n ?w ?p ?q] =>
        pose proof (calls_run_pool n w p q) as Hpool;
        destruct (run_pool n w p q) as [futures trace]
    end.
    cbn [snd] in Hpool.
    assert (Htrace : Forall P trace).
    { apply Hpool. intros [i t] Hit.
      assert (Hin : In (i, t) (combine (seq 0 (List.length (map f (seq 0 12))))
                                  (map f (seq 0 12)))).
      { destruct (submit_fails sched _); [|exact Hit].
        exact (firstn_subset _ _ _ Hit). }
      apply in_combine_r in Hin. apply in_map_iff in Hin as (k & <- & _).
      apply Hf. }
    destruct (submit_fails sched _); exact Htrace.
  - intros _. rewrite for_append_nil. now apply calls_in_order.
Qed.

End TraceKinds.


Ltac calls_step :=
  match goal with
  | |- Forall _ (snd (bind _ _)) => apply calls_bind
  | |- Forall _ (snd (try_except _ _)) => apply calls_try_except
  | |- Forall _ (snd (fan_out _ _ _)) => apply calls_fan_out
  | |- Forall _ (snd (tile_loop _ _ _ _ _)) => apply calls_tile_loop
  | |- Forall _ (snd (build_image _ _)) => apply calls_build_image
  | |- Forall _ (snd (build_geometry _ _)) => apply calls_build_geometry
  | |- Forall _ (snd (lift _)) => constructor
  | |- Forall _ (snd (ret _)) => constructor
  | |- Forall _ (snd (raise _)) => constructor
  | |- Forall _ (snd (getInfo _ _)) => repeat constructor
  | |- Forall _ (snd (getMapId _ _ _)) => repeat constructor
  | |- Forall _ (snd (if ?b then _ else _)) => destruct b
  | |- Forall _ (snd (match ?x with _ => _ end)) => destruct x
  | |- forall _, _ => intro
  end.

(** Property X8. The Amazon views only ever ask the servers for map tiles, and
    the custom-area and point views only ever fetch values: whatever
    the request, the service and the schedule, no other kind of remote
    call is made. *)
Theorem views_keep_to_one_kind_of_remote_call
  (env : Env) (sched : Schedule) (now : datetime)
  (request_data : list (string * pyval)) :
  Forall (fun e => is_GetMapId e = true) (snd (AmazonNDVIAPI.get env sched now))
  /\ Forall (fun e => is_GetMapId e = true) (snd (AmazonLSTAPI.get env sched now))
  /\ Forall (fun e => is_GetInfo e = true)
       (snd (CustomNDVIAPI.post env sched now request_data))
  /\ Forall (fun e => is_GetInfo e = true)
       (snd (CustomLSTAPI.post env sched now request_data))
  /\ Forall (fun e => is_GetInfo e = true)
       (snd (PointNDVIMonthlyAPI.post env request_data))
  /\ Forall (fun e => is_GetInfo e = true)
       (snd (PointLSTMonthlyAPI.post env request_data)).
Proof.
  repeat split.
  - unfold AmazonNDVIAPI.get, AmazonNDVIAPI.process_month, AmazonNDVIAPI.assemble,
      AmazonNDVIAPI.process_tile_month.
    repeat calls_step.
  - unfold AmazonLSTAPI.get, AmazonLSTAPI.process_month, AmazonLSTAPI.assemble,
      AmazonLSTAPI.process_tile_month.
    repeat calls_step.
  - unfold CustomNDVIAPI.post, CustomNDVIAPI.process_month. cbn zeta.
    repeat calls_step.
  - unfold CustomLSTAPI.post, CustomLSTAPI.process_month. cbn zeta.
    repeat calls_step.
  - unfold PointNDVIMonthlyAPI.post, sample_value, region_values. cbn zeta.
    repeat calls_step.
  - unfold PointLSTMonthlyAPI.post, sample_value, region_values. cbn zeta.
    repeat calls_step.
Qed.


(** ** Answers of the views *)

Lemma fst_bind_inv {A B} (m : M A) (k : A -> M B) (b : B) :
  fst (bind m k) = Ok b -> exists a, fst m = Ok a /\ fst (k a) = Ok b.
Proof.
  rewrite fst_bind. destruct (fst m) as [a|e]; [|discriminate].
  intros H. now exists a.
Qed.

(** Walk backwards through a computation that ended well. *)
Ltac inv_ok H :=
  repeat match type of H with
         | fst (bind _ _) = Ok _ =>
             let a := fresh "a" in
             let E := fresh "E" in
             apply fst_bind_inv in H; destruct H as (a & E & H); cbn beta in H
         | fst (if ?b then _ else _) = Ok _ => destruct b eqn:?
         | fst (match ?x with _ => _ end) = Ok _ => destruct x eqn:?
         end.

Ltac destruct_matches :=
  repeat match goal with
         | |- context [match ?x with _ => _ end] => destruct x
         end.

Lemma resolve_point_rejected (env : Env) (latitude longitude geometry : pyval)
  (r : Response) :
  resolve_point env latitude longitude geometry = Ok (Rejected r) ->
  exists msg, r = error_response msg 400.
Proof.
  unfold resolve_point, rbind. destruct_matches;
    try discriminate; intros [= <-]; eexists; reflexivity.
Qed.

Lemma resolve_month_rejected (month : pyval) (r : Response) :
  resolve_month month = Ok (Rejected r) ->
  exists msg, r = error_response msg 400.
Proof.
  unfold resolve_month. destruct_matches;
    try discriminate; intros [= <-]; eexists; reflexivity.
Qed.

Lemma validate_point_request_rejected (env : Env)
  (request_data : list (string * pyval)) (r : Response) :
  validate_point_request env request_data = Ok (Rejected r) ->
  exists msg, r = error_response msg 400.
Proof.
  unfold validate_point_request. cbn zeta.
  destruct (resolve_point env _ _ _) as [[r1|[lat lon]]|e] eqn:Hp;
    cbn [rbind]; try discriminate.
  - intros [= <-]. exact (resolve_point_rejected _ _ _ _ _ Hp).
  - destruct (resolve_month _) as [[r2|md]|e] eqn:Hm; cbn [rbind];
      try discriminate.
    intros [= <-]. exact (resolve_month_rejected _ _ Hm).
Qed.

Lemma consistent_view (body : M Response) (statuses : list Z) :
  In 500 statuses ->
  (forall r, fst body = Ok r ->
     In (status r) statuses
     /\ lookup (data r) "success" = Some (PBool (status r =? 200))
     /\ (status r <> 200 -> exists msg, lookup (data r) "error" = Some (PStr msg))) ->
  answers_consistently
    (try_except body (fun e => ret (error_response (exn_msg e) 500))) statuses.
Proof.
  intros H500 Hbody. unfold answers_consistently. rewrite fst_try_except.
  destruct (fst body) as [r|e].
  - exists r. split; [reflexivity | now apply Hbody].
  - exists (error_response (exn_msg e) 500). cbn.
    repeat split; try assumption. intros _. now exists (exn_msg e).
Qed.

Ltac good_answer H :=
  cbn in H; injection H as <-; cbn;
  repeat split; try tauto;
  try (intros Hne; now contradiction Hne);
  try (intros _; eexists; reflexivity).

(** Property X9. Every view always answers. The two GET views answer 200 or
    500, the four POST views 200, 400 or 500; the [success] flag of the
    body is true exactly for status 200, and every other answer carries
    an [error] message. *)
Theorem views_answer_consistently
  (env : Env) (sched : Schedule) (now : datetime)
  (request_data : list (string * pyval)) (lst : bool) :
  answers_consistently (amazon_get lst env sched now) [200; 500]
  /\ answers_consistently (custom_post lst env sched now request_data)
       [200; 400; 500]
  /\ answers_consistently (point_post lst env request_data) [200; 400; 500].
Proof.
  repeat split.
  - destruct lst; unfold amazon_get, AmazonLSTAPI.get, AmazonNDVIAPI.get;
      (apply consistent_view; [cbn; tauto|]); intros r H;
      inv_ok H; good_answer H.
  - destruct lst; unfold custom_post, CustomLSTAPI.post, CustomNDVIAPI.post;
      (apply consistent_view; [cbn; tauto|]); intros r H; cbn zeta in H;
      inv_ok H; good_answer H.
  - destruct lst; unfold point_post, PointLSTMonthlyAPI.post,
      PointNDVIMonthlyAPI.post;
      (apply consistent_view; [cbn; tauto|]); intros r H; cbn zeta in H;
      inv_ok H.
    all: try (cbn [fst lift] in *;
              match goal with
              | E : validate_point_request _ _ = Ok (Rejected _) |- _ =>
                  apply validate_point_request_rejected in E; destruct E as [msg ->]
              end).
    all: good_answer H.
Qed.


(** ** A failing month *)

Lemma in_order_first_failure {A} (f : nat -> M A) (e : exn) (n : nat) :
  forall a k,
    (k < n)%nat ->
    (forall i, (a <= i < a + k)%nat -> exists r, fst (f i) = Ok r) ->
    fst (f (a + k)%nat) = Raise e ->
    fst (in_order f (seq a n)) = Raise e.
Proof.
  induction n as [|n IH]; intros a k Hk Hok Hfail; [lia|].
  cbn [seq in_order]. rewrite fst_bind. destruct k as [|k].
  - rewrite Nat.add_0_r in Hfail. now rewrite Hfail.
  - destruct (Hok a ltac:(lia)) as [r ->]. cbn [rbind]. rewrite fst_bind.
    rewrite (IH (S a) k); [reflexivity | lia | | ].
    + intros i Hi. apply Hok. lia.
    + now replace (S a + k)%nat with (a + S k)%nat by lia.
Qed.

(** Property X10. When the task of some month raises, an Amazon view answers
    500 with the message of the first month (in month order) that
    fails, whatever the schedule; the months that succeeded are not
    returned. *)
Theorem failing_month_fails_the_view
  (lst : bool) (env : Env) (sched : Schedule) (now start_date : datetime)
  (k : nat) (e : exn) :
  window_start now = Ok start_date ->
  first_failure (amazon_process_month lst env grid_tiles start_date) k e ->
  fst (amazon_get lst env sched now) = Ok (error_response (exn_msg e) 500).
Proof.
  intros Hstart (Hk & Hok & Hfail).
  assert (Hseq : fst (in_order (amazon_process_month lst env grid_tiles start_date)
                        months) = Raise e).
  { apply (in_order_first_failure _ e 12 0 k Hk); [|exact Hfail].
    intros i Hi. apply Hok. lia. }
  destruct lst; unfold amazon_get, amazon_process_month in *;
    unfold AmazonLSTAPI.get, AmazonNDVIAPI.get;
    rewrite fst_try_except, fst_bind; cbn [fst lift]; rewrite Hstart;
    cbn [rbind]; rewrite fst_bind, fst_fan_out, Hseq; reflexivity.
Qed.

Lemma failing_month_fails_the_view_witness :
  fst (amazon_get false map_down Stub.shuffled (Stub.noon 2024 6 15))
  = Ok (error_response "User memory limit exceeded." 500).
Proof.
  apply (failing_month_fails_the_view false map_down Stub.shuffled
           (Stub.noon 2024 6 15) (Stub.noon 2023 6 15) 0
           (Exn EEException "User memory limit exceeded.")).
  - reflexivity.
  - split; [lia|]. split; [intros i Hi; lia|]. vm_compute. reflexivity.
Defined.

(** ** What a 200 answer holds *)

Lemma in_order_members {A} (f : nat -> M A) (indices : list nat) :
  forall rs,
    fst (in_order f indices) = Ok rs ->
    forall r, In r rs -> exists i, In i indices /\ fst (f i) = Ok r.
Proof.
  induction indices as [|i rest IH]; intros rs H r Hr.
  - cbn in H. injection H as <-. destruct Hr.
  - cbn [in_order] in H. rewrite fst_bind in H.
    destruct (fst (f i)) as [r0|e] eqn:Hfi; [|discriminate].
    cbn [rbind] in H. rewrite fst_bind in H.
    destruct (fst (in_order f rest)) as [rs'|e]; [|discriminate].
    cbn in H. injection H as <-. destruct Hr as [<-|Hr].
    + exists i. split; [now left | exact Hfi].
    + destruct (IH rs' eq_refl r Hr) as (j & Hj & Hfj).
      exists j. split; [now right | exact Hfj].
Qed.

Lemma amazon_entry (lst : bool) (env : Env) (start_date : datetime) (i : nat)
  (entry : pyval) :
  fst (amazon_process_month lst env grid_tiles start_date i) = Ok entry ->
  lookup entry "tiles_processed" = Some (PNum 48)
  /\ lookup entry "grid_coverage" = Some (PStr "complete")
  /\ exists month_start month_end,
       month_bounds start_date (Z.of_nat i) = Ok (month_start, month_end)
       /\ lookup entry "month" = Some (PStr (strftime_Ym month_start)).
Proof.
  assert (Hgrid : grid_tiles <> []) by discriminate.
  intros H.
  destruct lst; unfold amazon_process_month, AmazonLSTAPI.process_month,
    AmazonNDVIAPI.process_month in H.
  - inv_ok H. cbn in H. injection H as <-. cbn [fst lift] in E. subst a.
    destruct (AmazonLSTAPI.assemble env grid_tiles d d0) as [res t] eqn:Ha.
    cbn [fst] in E0. subst res.
    destruct (assemble_lst_inv _ _ _ _ _ _ _ Hgrid Ha) as [Hlen _].
    rewrite Hlen. repeat split. now exists d, d0.
  - inv_ok H. cbn in H. injection H as <-. cbn [fst lift] in E. subst a.
    destruct (AmazonNDVIAPI.assemble env grid_tiles d d0) as [res t] eqn:Ha.
    cbn [fst] in E0. subst res.
    destruct (assemble_ndvi_inv _ _ _ _ _ _ _ Hgrid Ha) as [Hlen _].
    rewrite Hlen. repeat split. now exists d, d0.
Qed.


Lemma positions_of_months {A} (f : nat -> M A) (rs : list A) :
  fst (in_order f months) = Ok rs ->
  List.length rs = 12%nat
  /\ forall i r, nth_error rs i = Some r -> (i < 12)%nat /\ fst (f i) = Ok r.
Proof.
  intros H. destruct (in_order_positions f months rs H) as [Hlen Hpos].
  split; [exact Hlen|]. intros i r Hi.
  assert (Hlt : (i < 12)%nat).
  { change 12%nat with (List.length months). rewrite <- Hlen.
    apply nth_error_Some. congruence. }
  split; [exact Hlt|].
  destruct (Hpos i i) as (r' & Hr' & Hnth).
  { unfold months. change [0; 1; 2; 3; 4; 5; 6; 7; 8; 9; 10; 11]%nat with (seq 0 12).
    rewrite nth_error_seq. destruct (Nat.ltb_spec i 12); [reflexivity | lia]. }
  congruence.
Qed.

(** Property X11. A 200 answer of an Amazon view holds exactly twelve layers;
    layer [i] is labelled with the month in which task [i] starts, and
    every layer reports 48 processed tiles and complete coverage, also
    when tile fetches failed and were replaced by placeholders. *)
Theorem amazon_200_answer
  (lst : bool) (env : Env) (sched : Schedule) (now : datetime) (r : Response) :
  fst (amazon_get lst env sched now) = Ok r -> status r = 200 ->
  exists start_date layers,
    window_start now = Ok start_date
    /\ lookup (data r) "monthly_layers" = Some (PList layers)
    /\ List.length layers = 12%nat
    /\ lookup (data r) "total_layers" = Some (PNum 12)
    /\ forall i entry,
         nth_error layers i = Some entry ->
         lookup entry "tiles_processed" = Some (PNum 48)
         /\ lookup entry "grid_coverage" = Some (PStr "complete")
         /\ exists month_start month_end,
              month_bounds start_date (Z.of_nat i) = Ok (month_start, month_end)
              /\ lookup entry "month" = Some (PStr (strftime_Ym month_start)).
Proof.
  intros H Hstatus.
  assert (Hbody : exists start_date layers,
             window_start now = Ok start_date
             /\ fst (in_order (amazon_process_month lst env grid_tiles start_date)
                       months) = Ok layers
             /\ lookup (data r) "monthly_layers" = Some (PList layers)
             /\ lookup (data r) "total_layers" = Some (PNum 12)).
  { destruct lst; unfold amazon_get, AmazonLSTAPI.get, AmazonNDVIAPI.get in H;
      rewrite fst_try_except in H;
      match type of H with
      | match ?body with _ => _ end = _ => destruct body as [resp|e] eqn:Hb
      end;
      try (cbn in H; injection H as <-; discriminate Hstatus);
      injection H as ->; inv_ok Hb; cbn in Hb; injection Hb as <-;
      cbn [fst lift] in E; rewrite fst_fan_out in E0;
      exists a, a0; repeat split; assumption. }
  destruct Hbody as (start_date & layers & Hstart & Hseq & Hlayers & Htotal).
  destruct (positions_of_months _ _ Hseq) as [Hlen Hpos].
  exists start_date, layers. repeat split; try assumption.
  all: intros; destruct (Hpos i entry H0) as [_ Hentry];
    destruct (amazon_entry lst env start_date i entry Hentry) as (H1 & H2 & H3);
    assumption.
Qed.

Lemma amazon_200_answer_witness :
  exists start_date layers,
    window_start (Stub.noon 2024 6 15) = Ok start_date
    /\ lookup
         (data (answer_of (amazon_get true Stub.tiles_down Stub.fifo
                             (Stub.noon 2024 6 15))))
         "monthly_layers" = Some (PList layers)
    /\ List.length layers = 12%nat
    /\ lookup
         (data (answer_of (amazon_get true Stub.tiles_down Stub.fifo
                             (Stub.noon 2024 6 15))))
         "total_layers" = Some (PNum 12)
    /\ forall i entry,
         nth_error layers i = Some entry ->
         lookup entry "tiles_processed" = Some (PNum 48)
         /\ lookup entry "grid_coverage" = Some (PStr "complete")
         /\ exists month_start month_end,
              month_bounds start_date (Z.of_nat i) = Ok (month_start, month_end)
              /\ lookup entry "month" = Some (PStr (strftime_Ym month_start)).
Proof.
  apply (amazon_200_answer true Stub.tiles_down Stub.fifo (Stub.noon 2024 6 15)).
  - vm_compute. reflexivity.
  - vm_compute. reflexivity.
Defined.


Lemma custom_entry (lst : bool) (env : Env) (aoi : Geometry)
  (start_date : datetime) (i : nat) (entry : pyval) :
  fst (custom_process_month lst env aoi start_date i) = Ok entry ->
  (exists available, lookup entry "data_available" = Some (PBool available))
  /\ exists month_start month_end,
       month_bounds start_date (Z.of_nat i) = Ok (month_start, month_end)
       /\ lookup entry "month" = Some (PStr (strftime_Ym month_start)).
Proof.
  intros H.
  destruct lst; unfold custom_process_month, CustomLSTAPI.process_month,
    CustomNDVIAPI.process_month in H; cbn zeta in H;
    inv_ok H; cbn in H; injection H as <-; cbn [fst lift] in E;
    (split; [eexists; reflexivity
            | eexists; eexists; split; [eassumption | reflexivity]]).
Qed.

(** Property X12. A 200 answer of a custom-area view holds exactly twelve
    monthly entries; entry [i] is labelled with the month in which task
    [i] starts and carries a [data_available] flag, and [aoi_bounds]
    gives back the coordinates of the request unchanged. *)
Theorem custom_200_answer
  (lst : bool) (env : Env) (sched : Schedule) (now : datetime)
  (request_data : list (string * pyval)) (r : Response) :
  fst (custom_post lst env sched now request_data) = Ok r -> status r = 200 ->
  exists start_date coordinates entries,
    window_start now = Ok start_date
    /\ aoi_coordinates (dict_get request_data "geometry") = Ok coordinates
    /\ lookup (data r) "aoi_bounds" = Some coordinates
    /\ lookup (data r) "monthly_statistics" = Some (PList entries)
    /\ List.length entries = 12%nat
    /\ forall i entry,
         nth_error entries i = Some entry ->
         (exists available,
            lookup entry "data_available" = Some (PBool available))
         /\ exists month_start month_end,
              month_bounds start_date (Z.of_nat i) = Ok (month_start, month_end)
              /\ lookup entry "month" = Some (PStr (strftime_Ym month_start)).
Proof.
  intros H Hstatus.
  assert (Hbody : exists start_date coordinates entries,
             window_start now = Ok start_date
             /\ aoi_coordinates (dict_get request_data "geometry") = Ok coordinates
             /\ fst (in_order
                       (custom_process_month lst env (Polygon coordinates) start_date)
                       months) = Ok entries
             /\ lookup (data r) "aoi_bounds" = Some coordinates
             /\ lookup (data r) "monthly_statistics" = Some (PList entries)).
  { destruct lst; unfold custom_post, CustomLSTAPI.post, CustomNDVIAPI.post in H;
      cbn zeta in H; rewrite fst_try_except in H;
      match type of H with
      | match ?body with _ => _ end = _ => destruct body as [resp|e] eqn:Hb
      end;
      try (cbn in H; injection H as <-; discriminate Hstatus);
      injection H as ->; inv_ok Hb.
    all: try (cbn [fst ret] in Hb; injection Hb as <-; discriminate Hstatus).
    all: cbn [fst lift] in E0, E2, E4; rewrite E0 in E4; injection E4 as <-.
    all: apply fst_build_geometry in E1; subst a1; rewrite fst_fan_out in E3.
    all: cbn [fst ret] in Hb; injection Hb as <-.
    all: exists a2, a0, a3; repeat split; assumption. }
  destruct Hbody as (start_date & coordinates & entries & Hstart & Hcoords & Hseq
                     & Hbounds & Hentries).
  destruct (positions_of_months _ _ Hseq) as [Hlen Hpos].
  exists start_date, coordinates, entries. repeat split; try assumption.
  all: intros; destruct (Hpos i entry H0) as [_ Hentry];
    destruct (custom_entry lst env _ start_date i entry Hentry) as (H1 & H2);
    assumption.
Qed.


Lemma custom_200_answer_witness :
  exists start_date coordinates entries,
    window_start (Stub.noon 2024 1 15) = Ok start_date
    /\ aoi_coordinates (dict_get Stub.polygon_request "geometry") = Ok coordinates
    /\ lookup
         (data (answer_of (custom_post false Stub.sunny Stub.breaks_midway
                             (Stub.noon 2024 1 15) Stub.polygon_request)))
         "aoi_bounds" = Some coordinates
    /\ lookup
         (data (answer_of (custom_post false Stub.sunny Stub.breaks_midway
                             (Stub.noon 2024 1 15) Stub.polygon_request)))
         "monthly_statistics" = Some (PList entries)
    /\ List.length entries = 12%nat
    /\ forall i entry,
         nth_error entries i = Some entry ->
         (exists available,
            lookup entry "data_available" = Some (PBool available))
         /\ exists month_start month_end,
              month_bounds start_date (Z.of_nat i) = Ok (month_start, month_end)
              /\ lookup entry "month" = Some (PStr (strftime_Ym month_start)).
Proof.
  apply (custom_200_answer false Stub.sunny Stub.breaks_midway
           (Stub.noon 2024 1 15) Stub.polygon_request).
  - vm_compute. reflexivity.
  - vm_compute. reflexivity.
Defined.


(** ** The two ways to name a point *)




(** Property X14. A point request without a latitude/longitude pair whose
    geometry is not a feature, is a feature of something else than a
    Point, or is a Point with fewer than two coordinates, is answered
    400 with the message for that fault, before any remote call. *)
Theorem faulty_point_geometry_is_turned_away
  (lst : bool) (env : Env) (request_data : list (string * pyval)) (msg : string) :
  no_latlon_pair request_data ->
  geometry_fault (dict_get request_data "geometry") msg ->
  point_post lst env request_data = (Ok (error_response msg 400), []).
Proof.
  intros Hpair Hfault.
  assert (Hval : validate_point_request env request_data
                 = Ok (Rejected (error_response msg 400))).
  { unfold validate_point_request, resolve_point. cbn zeta. rewrite Hpair.
    destruct Hfault as [geometry Hsome [Hnd | (d & -> & Hd)]
                       | d g Hg [Htype | Hcoords]
                       | d g coords Hg Htype Hcoords Hlen].
    - rewrite Hsome, Hnd. reflexivity.
    - cbn [is_not_None is_dict contains]. rewrite Hd. reflexivity.
    - cbn [is_not_None is_dict contains]. rewrite Hg. cbn [rbind getitem_str].
      rewrite Hg. cbn [rbind method_get]. rewrite Htype. reflexivity.
    - cbn [is_not_None is_dict contains]. rewrite Hg. cbn [rbind getitem_str].
      rewrite Hg. cbn [rbind method_get].
      destruct (eq_str (dict_get g "type") "Point"); [|reflexivity].
      cbn [contains]. rewrite Hcoords. reflexivity.
    - cbn [is_not_None is_dict contains]. rewrite Hg. cbn [rbind getitem_str].
      rewrite Hg. cbn [rbind method_get]. rewrite Htype. cbn [eq_str].
      change (String.eqb "Point" "Point") with true. cbn iota. cbn [contains].
      rewrite Hcoords. cbn [rbind getitem_str]. rewrite Hcoords.
      cbn [rbind len].
      destruct (Z.leb_spec 2 (Z.of_nat (List.length coords))); [lia|].
      reflexivity. }
  destruct lst; unfold point_post.
  - exact (point_lst_rejected _ _ _ Hval).
  - exact (point_ndvi_rejected _ _ _ Hval).
Qed.

Lemma faulty_point_geometry_is_turned_away_witness :
  point_post true Stub.quiet
    [("geometry",
      Stub.feature (PDict [("type", PStr "Point");
                           ("coordinates", PList [PNum (-60)])]));
     ("month", PStr "2024-01")]
  = (Ok (error_response "Invalid coordinates format" 400), []).
Proof.
  apply (faulty_point_geometry_is_turned_away true Stub.quiet).
  - reflexivity.
  - eapply too_few_coordinates; try reflexivity. simpl. lia.
Defined.


(** Property X15. A feature whose [geometry] member is null, a bool or a number
    is not answered like other malformed requests: reading it raises,
    and the custom-area views, and the point views when no
    latitude/longitude pair is given, answer 500, without any remote
    call. *)
Theorem scalar_geometry_member_gives_500
  (lst : bool) (env : Env) (sched : Schedule) (now : datetime)
  (request_data : list (string * pyval)) (d : list (string * pyval))
  (inner : pyval) :
  dict_get request_data "geometry" = PDict d ->
  assoc "geometry" d = Some inner ->
  scalar inner = true ->
  (exists msg,
     custom_post lst env sched now request_data
     = (Ok (error_response msg 500), []))
  /\ (no_latlon_pair request_data ->
      exists msg,
        point_post lst env request_data = (Ok (error_response msg 500), [])).
Proof.
  intros Hgeo Hinner Hscalar.
  assert (Htruthy : truthy (PDict d) = true).
  { destruct d; [discriminate | reflexivity]. }
  split.
  - assert (Hinv : exists e, invalid_aoi (PDict d) = Raise e).
    { unfold invalid_aoi. cbn [is_dict negb contains]. rewrite Hinner.
      cbn [rbind negb getitem_str]. rewrite Hinner. cbn [rbind].
      destruct inner; try discriminate; eexists; reflexivity. }
    destruct Hinv as [e He]. exists (exn_msg e).
    destruct lst; unfold custom_post, CustomLSTAPI.post, CustomNDVIAPI.post;
      cbn zeta; rewrite Hgeo, Htruthy, He; reflexivity.
  - intros Hpair.
    assert (Hval : exists e, validate_point_request env request_data = Raise e).
    { unfold validate_point_request, resolve_point. cbn zeta.
      rewrite Hpair, Hgeo. cbn [is_not_None is_dict contains]. rewrite Hinner.
      cbn [rbind getitem_str]. rewrite Hinner. cbn [rbind].
      destruct inner; try discriminate; eexists; reflexivity. }
    destruct Hval as [e He]. exists (exn_msg e).
    destruct lst; unfold point_post, PointLSTMonthlyAPI.post,
      PointNDVIMonthlyAPI.post; rewrite He; reflexivity.
Qed.

Lemma scalar_geometry_member_gives_500_witness :
  (exists msg,
     custom_post false Stub.quiet Stub.fifo Stub.june
       [("geometry", Stub.feature PNone)]
     = (Ok (error_response msg 500), []))
  /\ (no_latlon_pair [("geometry", Stub.feature PNone)] ->
      exists msg,
        point_post false Stub.quiet [("geometry", Stub.feature PNone)]
        = (Ok (error_response msg 500), [])).
Proof.
  apply (scalar_geometry_member_gives_500 false Stub.quiet Stub.fifo Stub.june
           [("geometry", Stub.feature PNone)]
           [("type", PStr "Feature"); ("geometry", PNone)] PNone);
    reflexivity.
Defined.

(** ** The values at a point *)






(** ** Observed values *)









(** ** Month labels and the month parameter *)

Lemma all_labels_read_back :
  forall5b digit_label (range 1 9) (range 0 10) (range 0 10) (range 0 10)
    (range 1 12) = true.
Proof. vm_compute. reflexivity. Qed.

Lemma forall5b_spec (P : Z -> Z -> Z -> Z -> Z -> bool) (la lb lc ld le : list Z) :
  forall5b P la lb lc ld le = true ->
  forall a b c d e, In a la -> In b lb -> In c lc -> In d ld -> In e le ->
    P a b c d e = true.
Proof.
  unfold forall5b. intros H a b c d e Ha Hb Hc Hd He.
  rewrite forallb_forall in H. specialize (H a Ha).
  rewrite forallb_forall in H. specialize (H b Hb).
  rewrite forallb_forall in H. specialize (H c Hc).
  rewrite forallb_forall in H. specialize (H d Hd).
  rewrite forallb_forall in H. exact (H e He).
Qed.

Lemma in_range (x lo : Z) (n : nat) :
  lo <= x < lo + Z.of_nat n -> In x (range lo n).
Proof.
  intros H. apply in_map_iff. exists (Z.to_nat (x - lo)). split; [lia|].
  apply in_seq. lia.
Qed.

Lemma split_year (y : Z) :
  1000 <= y <= 9999 ->
  exists a b c d, y = 1000 * a + 100 * b + 10 * c + d
                   /\ 1 <= a <= 9 /\ 0 <= b <= 9 /\ 0 <= c <= 9 /\ 0 <= d <= 9.
Proof.
  intros Hy. exists (y / 1000), ((y / 100) mod 10), ((y / 10) mod 10), (y mod 10).
  Z.to_euclidean_division_equations. lia.
Qed.

Lemma label_reads_back_holds (y m : Z) :
  1000 <= y <= 9999 -> 1 <= m <= 12 -> label_reads_back y m = true.
Proof.
  intros Hy Hm.
  destruct (split_year y Hy) as (a & b & c & d & -> & Ha & Hb & Hc & Hd).
  change (digit_label a b c d m = true).
  refine (forall5b_spec digit_label _ _ _ _ _ all_labels_read_back a b c d m
            _ _ _ _ _); apply in_range; lia.
Qed.

(** Property X19. The month label a 12-month view prints for a date of the
    years 1000 to 9999 (['%Y-%m']) is accepted as [month] parameter by
    the point views and read back as the first day of that month, at
    midnight. *)
Theorem month_label_reads_back (dt : datetime) :
  1000 <= year dt <= 9999 -> 1 <= month dt <= 12 ->
  resolve_month (PStr (strftime_Ym dt))
  = Ok (Accepted (first_of_month (year dt) (month dt))).
Proof.
  intros Hy Hm.
  pose proof (label_reads_back_holds (year dt) (month dt) Hy Hm) as Hall.
  unfold label_reads_back in Hall. unfold strftime_Ym.
  destruct (resolve_month _) as [[r|got]|e]; try discriminate.
  destruct got as [y m d hh mm ss us].
  cbn [year month day hour minute second microsecond] in Hall.
  repeat (apply andb_prop in Hall; destruct Hall as [Hall ?]).
  unfold first_of_month.
  repeat match goal with
         | H : (_ =? _) = true |- _ => apply Z.eqb_eq in H
         end.
  now subst.
Qed.

Lemma month_label_reads_back_witness :
  resolve_month (PStr (strftime_Ym (Stub.noon 2023 2 28)))
  = Ok (Accepted (first_of_month (year (Stub.noon 2023 2 28))
                    (month (Stub.noon 2023 2 28)))).
Proof. apply (month_label_reads_back (Stub.noon 2023 2 28)); simpl; lia. Defined.
